(** * ResumeScanner: the React front-end, embedded and verified

    The development follows the three source components:

    - [ScanResume] (the page: [handleFileUpload], [handleJdChange],
      [scanResume]);
    - [ResumeUploadComponent] ([handleDrag], [handleDrop], [handleChange],
      [handleJdChange], the submit button);
    - [ResumePreviewComponent] (the two [useEffect]s, [generatePreview],
      the render function).

    Handlers are actions of a small state / trace / exception monad [M];
    an [await] ends the synchronous part of an async function with the
    completion [Await w], and the rest of the function is the resumption
    run when the awaited promise settles.  The browser (user events, timer
    ticks, promise settlement) is a step relation over the application
    state. *)

From Stdlib Require Import ZArith NArith QArith List String Ascii Bool Lia.
From Stdlib Require Import DecimalString.
Import ListNotations.
Close Scope Q_scope.
Local Open Scope list_scope.

Set Implicit Arguments.
Set Warnings "-register-all".

(** ** JavaScript strings

    A JS string is a sequence of UTF-16 code units. *)

Definition jsstring := list N.

Definition lit (s : string) : jsstring :=
  map N_of_ascii (list_ascii_of_string s).

Fixpoint str_eqb (a b : jsstring) : bool :=
  match a, b with
  | [], [] => true
  | x :: a', y :: b' => (x =? y)%N && str_eqb a' b'
  | _, _ => false
  end.

(** [s.startsWith(p)] *)
Fixpoint starts_with (p s : jsstring) : bool :=
  match p, s with
  | [], _ => true
  | x :: p', y :: s' => (x =? y)%N && starts_with p' s'
  | _ :: _, [] => false
  end.

(** [s.includes(sub)] *)
Fixpoint includes (s sub : jsstring) : bool :=
  starts_with sub s ||
  match s with
  | [] => false
  | _ :: s' => includes s' sub
  end.

(** [s.replace(pat, rep)] with a string pattern: only the first occurrence
    is replaced. *)
Fixpoint replace (s pat rep : jsstring) : jsstring :=
  if starts_with pat s then rep ++ skipn (List.length pat) s
  else match s with
       | [] => []
       | c :: s' => c :: replace s' pat rep
       end.

(** ECMAScript WhiteSpace and LineTerminator code points, the ones
    [String.prototype.trim] strips. *)
Definition is_whitespace (c : N) : bool :=
  ((9 <=? c) && (c <=? 13) || (c =? 32) || (c =? 160) || (c =? 5760)
   || (8192 <=? c) && (c <=? 8202) || (c =? 8232) || (c =? 8233)
   || (c =? 8239) || (c =? 8287) || (c =? 12288) || (c =? 65279))%N.

Fixpoint trimStart (s : jsstring) : jsstring :=
  match s with
  | [] => []
  | c :: s' => if is_whitespace c then trimStart s' else s
  end.

Definition trimEnd (s : jsstring) : jsstring := rev (trimStart (rev s)).

Definition trim (s : jsstring) : jsstring := trimEnd (trimStart s).

(** Truthiness of a string: only the empty string is falsy. *)
Definition str_truthy (s : jsstring) : bool :=
  match s with [] => false | _ :: _ => true end.

(** ** JSON values *)

Inductive json : Type :=
| JNull
| JBool (b : bool)
| JNum (q : Q)
| JStr (s : jsstring)
| JArr (items : list json)
| JObj (members : list (jsstring * json)).

(** [ToBoolean] on a parsed JSON value. *)
Definition truthy (v : json) : bool :=
  match v with
  | JNull => false
  | JBool b => b
  | JNum q => negb (Qeq_bool q 0)
  | JStr s => str_truthy s
  | JArr _ | JObj _ => true
  end.

Fixpoint assoc (k : jsstring) (l : list (jsstring * json)) : option json :=
  match l with
  | [] => None
  | (k', v) :: l' => if str_eqb k k' then Some v else assoc k l'
  end.

(** Errors are identified by their name. *)
Definition error := jsstring.

(** What a promise settles to, or what an expression evaluates to. *)
Inductive result (A : Type) : Type :=
| Value (a : A)
| Error (e : error).
Arguments Value {A} a.
Arguments Error {A} e.

(** ** Browser objects *)

Module File.
(** A [File] is an object: [handle] stands for its identity. *)
Record t := mk { handle : N; name : jsstring; type : jsstring; size : N }.

(** [Object.is] on two files. *)
Definition same (a b : t) : bool := (handle a =? handle b)%N.
End File.

(** [Object.is] on the value of a [file] state cell ([null] or a file). *)
Definition same_file (a b : option File.t) : bool :=
  match a, b with
  | None, None => true
  | Some f, Some g => File.same f g
  | _, _ => false
  end.

Inductive FormValue :=
| FVFile (f : File.t)
| FVString (s : jsstring).

(** A [FormData]: the entries in the order they were appended. *)
Definition FormData := list (jsstring * FormValue).

Definition append (fd : FormData) (key : jsstring) (v : FormValue) : FormData :=
  fd ++ [(key, v)].

(** [formData.append(key, x)] where [x] is a file or [null]: anything that
    is not a [Blob] is converted to a string. *)
Definition form_value_of_file (x : option File.t) : FormValue :=
  match x with
  | Some f => FVFile f
  | None => FVString (lit "null")
  end.

Module Request.
Record t := mk { url : jsstring; method : jsstring; body : FormData }.
End Request.

Module Response.
(** [json] is what [response.json()] settles to. *)
Record t := mk { ok : bool; statusText : jsstring; json : result json }.
End Response.

(** Object URLs handed out by [URL.createObjectURL]. *)
Definition objurl := N.

(** ** Component state

    One record per component, one field per [useState] cell. *)

(** [ScanResume], the page. *)
Module Page.
Record state := mk {
  file : option File.t;
  jobDescription : jsstring;
  isLoading : bool;
  results : json
}.
Definition initial : state := mk None [] false JNull.
End Page.

(** [ResumeUploadComponent]. *)
Module Upload.
Record state := mk {
  dragActive : bool;
  file : option File.t;
  jd : jsstring
}.
Definition initial : state := mk false None [].
End Upload.

(** The object stored by [setFileContent]; [content_type] is its [type]
    member. *)
Inductive FileContent :=
| PdfContent (url : objurl)
| TextContent (content : jsstring)
| DocumentContent (name : jsstring) (size : N) (url : objurl).

Definition content_type (c : FileContent) : jsstring :=
  match c with
  | PdfContent _ => lit "pdf"
  | TextContent _ => lit "text"
  | DocumentContent _ _ _ => lit "document"
  end.

(** [ResumePreviewComponent]. *)
Module Preview.
Record state := mk {
  fileContent : option FileContent;
  fileUrl : option objurl;
  isLoadingPreview : bool;
  previewError : option jsstring;
  scanPosition : Z
}.
Definition initial : state := mk None None false None 0%Z.
End Preview.

(** The promise an async function is suspended on. *)
Inductive awaited :=
| OnFetch (req : Request.t)
| OnJson (resp : Response.t)
| OnText (f : File.t).

(** What lives outside the [useState] cells: the promises that have not
    settled yet, the live interval timers, the variables closed over by
    the effect clean-ups, and the counters behind fresh timer ids and
    object URLs. *)
Module Runtime.
Record state := mk {
  pending : list awaited;
  timers : list N;
  scanInterval : option N;
  cleanupFileUrl : option objurl;
  nextTimer : N;
  nextUrl : N
}.
Definition initial : state := mk [] [] None None 1%N 1%N.
End Runtime.

Record App := mkApp {
  page : Page.state;
  upload : Upload.state;
  preview : Preview.state;
  runtime : Runtime.state
}.

(** Observable effects other than state updates. *)
Inductive effect :=
| PreventDefault
| StopPropagation
| Fetch (req : Request.t)
| ReadText (f : File.t)
| ConsoleError (label : jsstring) (detail : jsstring)
| CreateObjectURL (f : File.t) (u : objurl)
| RevokeObjectURL (u : objurl)
| SetInterval (id : N) (ms : Z)
| ClearInterval (id : N)
| UnhandledRejection (e : error).

(** ** The monad of handlers *)

Inductive completion (A : Type) : Type :=
| Normal (a : A)
| Throw (e : error)
| Await (w : awaited).
Arguments Normal {A} a.
Arguments Throw {A} e.
Arguments Await {A} w.

Definition M (A : Type) : Type := App -> completion A * App * list effect.

Definition ret {A} (a : A) : M A := fun s => (Normal a, s, []).

Definition bind {A B} (m : M A) (f : A -> M B) : M B :=
  fun s =>
    match m s with
    | (Normal a, s1, t1) =>
        let '(c, s2, t2) := f a s1 in (c, s2, t1 ++ t2)
    | (Throw e, s1, t1) => (Throw e, s1, t1)
    | (Await w, s1, t1) => (Await w, s1, t1)
    end.

Declare Scope handler_scope.
Delimit Scope handler_scope with M.
Notation "x <- c1 ;; c2" := (bind c1 (fun x => c2))
  (at level 61, c1 at next level, right associativity) : handler_scope.
Notation "c1 ;; c2" := (bind c1 (fun _ => c2))
  (at level 61, right associativity) : handler_scope.
Local Open Scope handler_scope.

Definition throw {A} (e : error) : M A := fun s => (Throw e, s, []).

(** [await p]: the function is suspended until [w] settles. *)
Definition await {A} (w : awaited) : M A := fun s => (Await w, s, []).

(** Resumption of an [await]: the settled value, or the rejection thrown
    at the [await]. *)
Definition settled {A} (r : result A) : M A :=
  match r with
  | Value a => ret a
  | Error e => throw e
  end.

Definition emit (x : effect) : M unit := fun s => (Normal tt, s, [x]).

Definition get : M App := fun s => (Normal s, s, []).

Definition modify (f : App -> App) : M unit := fun s => (Normal tt, f s, []).

(** [try { body } catch (e) { handler e }]; a suspended body is resumed
    later, under the same handler. *)
Definition try_catch {A} (body : M A) (handler : error -> M A) : M A :=
  fun s =>
    match body s with
    | (Throw e, s1, t1) =>
        let '(c, s2, t2) := handler e s1 in (c, s2, t1 ++ t2)
    | r => r
    end.

(** [try { body } finally { fin }]: [fin] runs on a normal and on an abrupt
    completion, not at a suspension. *)
Definition try_finally {A} (body : M A) (fin : M unit) : M A :=
  fun s =>
    match body s with
    | (Await w, s1, t1) => (Await w, s1, t1)
    | (c, s1, t1) =>
        match fin s1 with
        | (Normal _, s2, t2) => (c, s2, t1 ++ t2)
        | (Throw e, s2, t2) => (Throw e, s2, t1 ++ t2)
        | (Await w, s2, t2) => (Await w, s2, t1 ++ t2)
        end
    end.

Definition try_catch_finally {A} (body : M A) (handler : error -> M A)
    (fin : M unit) : M A :=
  try_finally (try_catch body handler) fin.

(** Calling an async function without awaiting it: the caller goes on;
    a suspension is recorded among the pending promises, an escaping
    exception is a rejected promise nobody handles. *)
Definition add_pending (w : awaited) (a : App) : App :=
  let r := runtime a in
  mkApp (page a) (upload a) (preview a)
    (Runtime.mk (Runtime.pending r ++ [w]) (Runtime.timers r)
       (Runtime.scanInterval r) (Runtime.cleanupFileUrl r)
       (Runtime.nextTimer r) (Runtime.nextUrl r)).

Definition spawn (m : M unit) : M unit :=
  fun s =>
    match m s with
    | (Normal _, s1, t1) => (Normal tt, s1, t1)
    | (Throw e, s1, t1) => (Normal tt, s1, t1 ++ [UnhandledRejection e])
    | (Await w, s1, t1) => (Normal tt, add_pending w s1, t1)
    end.

Definition exec {A} (m : M A) (s : App) : App := snd (fst (m s)).
Definition trace {A} (m : M A) (s : App) : list effect := snd (m s).
Definition outcome {A} (m : M A) (s : App) : completion A := fst (fst (m s)).

(** ** State updates *)

Definition on_page (g : Page.state -> Page.state) (a : App) : App :=
  mkApp (g (page a)) (upload a) (preview a) (runtime a).

Definition on_upload (g : Upload.state -> Upload.state) (a : App) : App :=
  mkApp (page a) (g (upload a)) (preview a) (runtime a).

Definition on_preview (g : Preview.state -> Preview.state) (a : App) : App :=
  mkApp (page a) (upload a) (g (preview a)) (runtime a).

Definition on_runtime (g : Runtime.state -> Runtime.state) (a : App) : App :=
  mkApp (page a) (upload a) (preview a) (g (runtime a)).

Definition consoleError (label detail : jsstring) : M unit :=
  emit (ConsoleError label detail).

(** ** ScanResume.jsx *)

Module ScanResume.

Definition setFile (f : option File.t) : M unit :=
  modify (on_page (fun p =>
    Page.mk f (Page.jobDescription p) (Page.isLoading p) (Page.results p))).

Definition setJobDescription (jd : jsstring) : M unit :=
  modify (on_page (fun p =>
    Page.mk (Page.file p) jd (Page.isLoading p) (Page.results p))).

Definition setIsLoading (b : bool) : M unit :=
  modify (on_page (fun p =>
    Page.mk (Page.file p) (Page.jobDescription p) b (Page.results p))).

Definition setResults (data : json) : M unit :=
  modify (on_page (fun p =>
    Page.mk (Page.file p) (Page.jobDescription p) (Page.isLoading p) data)).

Definition endpoint : jsstring := lit "http://localhost:5000/scan-resume/".

(** [fetch(url, { method, body })]: the request leaves, the caller is
    suspended on the returned promise. *)
Definition fetch {A} (req : Request.t) : M A :=
  (emit (Fetch req) ;; await (OnFetch req))%M.

(** The [catch] and [finally] blocks of [scanResume]. *)
Definition scanResume_catch (e : error) : M unit :=
  consoleError (lit "Error:") e.

Definition scanResume_finally : M unit := setIsLoading false.

(** [scanResume], from its entry to [await fetch(...)]. *)
Definition scanResume_call (resumeFile : option File.t) (jd : jsstring)
  : M unit :=
  setIsLoading true ;;
  try_catch_finally
    (let formData : FormData := [] in
     let formData := append formData (lit "file")
                       (form_value_of_file resumeFile) in
     let formData := append formData (lit "job_description") (FVString jd) in
     fetch (Request.mk endpoint (lit "POST") formData))
    scanResume_catch
    scanResume_finally.

(** [scanResume], from the settlement of the fetch to
    [await response.json()] or to the end. *)
Definition scanResume_afterFetch (r : result Response.t) : M unit :=
  try_catch_finally
    (response <- settled r ;;
     if Response.ok response
     then await (OnJson response)
     else consoleError (lit "Error scanning resume:")
            (Response.statusText response))
    scanResume_catch
    scanResume_finally.

(** [scanResume], from the settlement of [response.json()] to the end. *)
Definition scanResume_afterJson (r : result json) : M unit :=
  try_catch_finally
    (data <- settled r ;;
     setResults data)
    scanResume_catch
    scanResume_finally.

Definition handleFileUpload (uploadedFile : option File.t)
    (jd : option jsstring) : M unit :=
  match jd with
  | Some jd => spawn (scanResume_call uploadedFile jd)
  | None => setFile uploadedFile
  end.

Definition handleJdChange (jd : jsstring) : M unit :=
  setJobDescription jd.

End ScanResume.

(** ** ResumeUploadComponent.jsx *)

Module ResumeUploadComponent.

Definition setDragActive (b : bool) : M unit :=
  modify (on_upload (fun u => Upload.mk b (Upload.file u) (Upload.jd u))).

Definition setFile (f : option File.t) : M unit :=
  modify (on_upload (fun u => Upload.mk (Upload.dragActive u) f (Upload.jd u))).

Definition setJd (v : jsstring) : M unit :=
  modify (on_upload (fun u =>
    Upload.mk (Upload.dragActive u) (Upload.file u) v)).

Section Props.

Variable onFileUpload : option File.t -> option jsstring -> M unit.
Variable onJdChange : jsstring -> M unit.
Variable isLoading : bool.

(** [type] is [e.type]. *)
Definition handleDrag (type : jsstring) : M unit :=
  emit PreventDefault ;;
  emit StopPropagation ;;
  if str_eqb type (lit "dragenter") || str_eqb type (lit "dragover")
  then setDragActive true
  else if str_eqb type (lit "dragleave")
  then setDragActive false
  else ret tt.

(** [files] is [e.dataTransfer.files]. *)
Definition handleDrop (files : list File.t) : M unit :=
  emit PreventDefault ;;
  emit StopPropagation ;;
  setDragActive false ;;
  match files with
  | droppedFile :: _ =>
      setFile (Some droppedFile) ;;
      onFileUpload (Some droppedFile) None
  | [] => ret tt
  end.

(** [files] is [e.target.files]. *)
Definition handleChange (files : list File.t) : M unit :=
  emit PreventDefault ;;
  match files with
  | selectedFile :: _ =>
      setFile (Some selectedFile) ;;
      onFileUpload (Some selectedFile) None
  | [] => ret tt
  end.

(** [value] is [e.target.value]. *)
Definition handleJdChange (value : jsstring) : M unit :=
  setJd value ;;
  onJdChange value.

(** The [disabled] attribute of the submit button. *)
Definition submit_disabled (u : Upload.state) : bool :=
  negb (match Upload.file u with Some _ => true | None => false end)
  || negb (str_truthy (trim (Upload.jd u)))
  || isLoading.

(** The [onClick] of the submit button, closed over the rendered state. *)
Definition submit_onClick (u : Upload.state) : M unit :=
  onFileUpload (Upload.file u) (Some (Upload.jd u)).

(** The [disabled] attribute of the file input and of the textarea. *)
Definition input_disabled : bool := isLoading.

End Props.

End ResumeUploadComponent.

(** ** resumePreviewComponent.jsx: state, effects, [generatePreview] *)

Module ResumePreviewComponent.

Definition setFileContent (c : option FileContent) : M unit :=
  modify (on_preview (fun p =>
    Preview.mk c (Preview.fileUrl p) (Preview.isLoadingPreview p)
      (Preview.previewError p) (Preview.scanPosition p))).

Definition setFileUrl (u : option objurl) : M unit :=
  modify (on_preview (fun p =>
    Preview.mk (Preview.fileContent p) u (Preview.isLoadingPreview p)
      (Preview.previewError p) (Preview.scanPosition p))).

Definition setIsLoadingPreview (b : bool) : M unit :=
  modify (on_preview (fun p =>
    Preview.mk (Preview.fileContent p) (Preview.fileUrl p) b
      (Preview.previewError p) (Preview.scanPosition p))).

Definition setPreviewError (e : option jsstring) : M unit :=
  modify (on_preview (fun p =>
    Preview.mk (Preview.fileContent p) (Preview.fileUrl p)
      (Preview.isLoadingPreview p) e (Preview.scanPosition p))).

(** [setScanPosition] takes an updater, as in [setScanPosition(prev => ...)];
    [setScanPosition(0)] is the constant updater. *)
Definition setScanPosition (f : Z -> Z) : M unit :=
  modify (on_preview (fun p =>
    Preview.mk (Preview.fileContent p) (Preview.fileUrl p)
      (Preview.isLoadingPreview p) (Preview.previewError p)
      (f (Preview.scanPosition p)))).

(** [URL.createObjectURL(file)]: a fresh object URL. *)
Definition createObjectURL (file : File.t) : M objurl :=
  a <- get ;;
  let u := Runtime.nextUrl (runtime a) in
  modify (on_runtime (fun r =>
    Runtime.mk (Runtime.pending r) (Runtime.timers r)
      (Runtime.scanInterval r) (Runtime.cleanupFileUrl r)
      (Runtime.nextTimer r) (u + 1)%N)) ;;
  emit (CreateObjectURL file u) ;;
  ret u.

(** [setInterval(callback, ms)]: a fresh, live timer id. *)
Definition setInterval (ms : Z) : M N :=
  a <- get ;;
  let id := Runtime.nextTimer (runtime a) in
  modify (on_runtime (fun r =>
    Runtime.mk (Runtime.pending r) (Runtime.timers r ++ [id])
      (Runtime.scanInterval r) (Runtime.cleanupFileUrl r)
      (id + 1)%N (Runtime.nextUrl r))) ;;
  emit (SetInterval id ms) ;;
  ret id.

Definition clearInterval (id : N) : M unit :=
  modify (on_runtime (fun r =>
    Runtime.mk (Runtime.pending r)
      (filter (fun t => negb (t =? id)%N) (Runtime.timers r))
      (Runtime.scanInterval r) (Runtime.cleanupFileUrl r)
      (Runtime.nextTimer r) (Runtime.nextUrl r))) ;;
  emit (ClearInterval id).

(** [file.text()]: the read starts, the caller is suspended. *)
Definition text {A} (file : File.t) : M A :=
  emit (ReadText file) ;; await (OnText file).

Definition generatePreview_catch (e : error) : M unit :=
  setPreviewError (Some (lit "Failed to load preview")) ;;
  consoleError (lit "Preview error:") e.

Definition generatePreview_finally : M unit := setIsLoadingPreview false.

(** [generatePreview], from its entry to [await file.text()] or to the
    end. *)
Definition generatePreview_call (file : File.t) : M unit :=
  setIsLoadingPreview true ;;
  setPreviewError None ;;
  try_catch_finally
    (url <- createObjectURL file ;;
     setFileUrl (Some url) ;;
     if str_eqb (File.type file) (lit "application/pdf")
     then setFileContent (Some (PdfContent url))
     else if includes (File.type file) (lit "text")
     then text file
     else setFileContent
            (Some (DocumentContent (File.name file) (File.size file) url)))
    generatePreview_catch
    generatePreview_finally.

(** [generatePreview], from the settlement of [file.text()] to the end. *)
Definition generatePreview_afterText (r : result jsstring) : M unit :=
  try_catch_finally
    (text <- settled r ;;
     setFileContent (Some (TextContent text)))
    generatePreview_catch
    generatePreview_finally.

(** *** [useEffect(..., [file])] *)

(** The clean-up revokes the [fileUrl] of the render that created it. *)
Definition fileEffect_cleanup : M unit :=
  a <- get ;;
  match Runtime.cleanupFileUrl (runtime a) with
  | Some u => emit (RevokeObjectURL u)
  | None => ret tt
  end.

Definition fileEffect (file : option File.t) : M unit :=
  a <- get ;;
  let fileUrl := Preview.fileUrl (preview a) in
  match file with
  | Some f => spawn (generatePreview_call f)
  | None => ret tt
  end ;;
  modify (on_runtime (fun r =>
    Runtime.mk (Runtime.pending r) (Runtime.timers r)
      (Runtime.scanInterval r) fileUrl
      (Runtime.nextTimer r) (Runtime.nextUrl r))).

(** *** [useEffect(..., [isLoading])] *)

(** The interval callback. *)
Definition scanTick : M unit :=
  setScanPosition (fun prev => if (prev >=? 100)%Z then 0%Z else (prev + 2)%Z).

Definition set_scanInterval (v : option N) : M unit :=
  modify (on_runtime (fun r =>
    Runtime.mk (Runtime.pending r) (Runtime.timers r)
      v (Runtime.cleanupFileUrl r)
      (Runtime.nextTimer r) (Runtime.nextUrl r))).

Definition scanEffect_cleanup : M unit :=
  a <- get ;;
  match Runtime.scanInterval (runtime a) with
  | Some id => clearInterval id
  | None => ret tt
  end.

Definition scanEffect (isLoading : bool) : M unit :=
  set_scanInterval None ;;
  if isLoading
  then (id <- setInterval 50 ;; set_scanInterval (Some id))
  else setScanPosition (fun _ => 0%Z).

End ResumePreviewComponent.

(** ** The running application *)

(** The passive effects React runs after a render: for every effect with
    a changed dependency first the old clean-up, then the effect.  [prev]
    is the state of the previous render; the dependencies are the props
    [file] and [isLoading] the page passes down. *)
Definition useEffects (prev : App) : M unit :=
  a <- get ;;
  let fileChanged := negb (same_file (Page.file (page prev)) (Page.file (page a))) in
  let loadingChanged :=
    negb (Bool.eqb (Page.isLoading (page prev)) (Page.isLoading (page a))) in
  (if fileChanged then ResumePreviewComponent.fileEffect_cleanup else ret tt) ;;
  (if loadingChanged then ResumePreviewComponent.scanEffect_cleanup else ret tt) ;;
  (if fileChanged then ResumePreviewComponent.fileEffect (Page.file (page a))
   else ret tt) ;;
  (if loadingChanged then ResumePreviewComponent.scanEffect (Page.isLoading (page a))
   else ret tt).

(** One turn of the event loop: the handler, then the effects of the
    re-render. *)
Definition dispatch (h : M unit) : M unit :=
  prev <- get ;;
  h ;;
  useEffects prev.

(** The state after mounting: both effects have run once. *)
Definition mount : M unit :=
  ResumePreviewComponent.fileEffect None ;;
  ResumePreviewComponent.scanEffect false.

Definition initial : App :=
  exec mount (mkApp Page.initial Upload.initial Preview.initial Runtime.initial).

(** The continuation an awaited promise resumes. *)
Definition take_pending (l1 l2 : list awaited) : M unit :=
  modify (on_runtime (fun r =>
    Runtime.mk (l1 ++ l2) (Runtime.timers r)
      (Runtime.scanInterval r) (Runtime.cleanupFileUrl r)
      (Runtime.nextTimer r) (Runtime.nextUrl r))).

(** The handlers the page wires into the upload component. *)
Definition upload_handleDrag :=
  ResumeUploadComponent.handleDrag.
Definition upload_handleDrop :=
  ResumeUploadComponent.handleDrop ScanResume.handleFileUpload.
Definition upload_handleChange :=
  ResumeUploadComponent.handleChange ScanResume.handleFileUpload.
Definition upload_handleJdChange :=
  ResumeUploadComponent.handleJdChange ScanResume.handleJdChange.
Definition upload_submit_disabled (a : App) : bool :=
  ResumeUploadComponent.submit_disabled (Page.isLoading (page a)) (upload a).
Definition upload_submit_onClick (a : App) : M unit :=
  ResumeUploadComponent.submit_onClick ScanResume.handleFileUpload (upload a).
Definition upload_input_disabled (a : App) : bool :=
  ResumeUploadComponent.input_disabled (Page.isLoading (page a)).

(** What the browser can do next.  A disabled control receives no event;
    a timer fires only while it is live; a promise settles only while it
    is pending. *)
Inductive step : App -> list effect -> App -> Prop :=
| step_drag s type :
    step s (trace (dispatch (upload_handleDrag type)) s)
           (exec (dispatch (upload_handleDrag type)) s)
| step_drop s files :
    step s (trace (dispatch (upload_handleDrop files)) s)
           (exec (dispatch (upload_handleDrop files)) s)
| step_change s files :
    upload_input_disabled s = false ->
    step s (trace (dispatch (upload_handleChange files)) s)
           (exec (dispatch (upload_handleChange files)) s)
| step_jd s value :
    upload_input_disabled s = false ->
    step s (trace (dispatch (upload_handleJdChange value)) s)
           (exec (dispatch (upload_handleJdChange value)) s)
| step_click s :
    upload_submit_disabled s = false ->
    step s (trace (dispatch (upload_submit_onClick s)) s)
           (exec (dispatch (upload_submit_onClick s)) s)
| step_tick s id :
    In id (Runtime.timers (runtime s)) ->
    step s (trace (dispatch ResumePreviewComponent.scanTick) s)
           (exec (dispatch ResumePreviewComponent.scanTick) s)
| step_fetch_settled s l1 req l2 (r : result Response.t) :
    Runtime.pending (runtime s) = l1 ++ OnFetch req :: l2 ->
    let h := take_pending l1 l2 ;; spawn (ScanResume.scanResume_afterFetch r) in
    step s (trace (dispatch h) s) (exec (dispatch h) s)
| step_json_settled s l1 resp l2 :
    Runtime.pending (runtime s) = l1 ++ OnJson resp :: l2 ->
    let h := take_pending l1 l2 ;;
             spawn (ScanResume.scanResume_afterJson (Response.json resp)) in
    step s (trace (dispatch h) s) (exec (dispatch h) s)
| step_text_settled s l1 f l2 (r : result jsstring) :
    Runtime.pending (runtime s) = l1 ++ OnText f :: l2 ->
    let h := take_pending l1 l2 ;;
             spawn (ResumePreviewComponent.generatePreview_afterText r) in
    step s (trace (dispatch h) s) (exec (dispatch h) s).

(** The states the application can be in, with the effects so far. *)
Inductive reachable : list effect -> App -> Prop :=
| reach_initial : reachable [] initial
| reach_step s t s' tr :
    reachable tr s -> step s t s' -> reachable (tr ++ t) s'.

(** ** Async functions run to completion

    [Env] is what the outside world answers: the response to a request
    and the outcome of reading a file. *)
Record Env := mkEnv {
  fetch_result : Request.t -> result Response.t;
  text_result : File.t -> result jsstring
}.

(** The rest of the async function suspended on [w]. *)
Definition resume (env : Env) (w : awaited) : M unit :=
  match w with
  | OnFetch req => ScanResume.scanResume_afterFetch (fetch_result env req)
  | OnJson resp => ScanResume.scanResume_afterJson (Response.json resp)
  | OnText f =>
      ResumePreviewComponent.generatePreview_afterText (text_result env f)
  end.

(** Drive an async function through at most [fuel] awaits. *)
Fixpoint run_async (fuel : nat) (env : Env) (m : M unit) : M unit :=
  fun s =>
    match m s with
    | (Await w, s1, t1) =>
        match fuel with
        | O => (Await w, s1, t1)
        | S n =>
            let '(c, s2, t2) := run_async n env (resume env w) s1 in
            (c, s2, t1 ++ t2)
        end
    | r => r
    end.

(** A whole run of [scanResume(resumeFile, jd)]: it awaits twice at most. *)
Definition scanResume (env : Env) (resumeFile : option File.t)
    (jd : jsstring) : M unit :=
  run_async 2 env (ScanResume.scanResume_call resumeFile jd).

(** A whole run of [generatePreview(file)]: it awaits once at most. *)
Definition generatePreview (env : Env) (file : File.t) : M unit :=
  run_async 1 env (ResumePreviewComponent.generatePreview_call file).

(** ** Rendering *)

Definition rbind {A B} (r : result A) (f : A -> result B) : result B :=
  match r with
  | Value a => f a
  | Error e => Error e
  end.

Declare Scope result_scope.
Delimit Scope result_scope with R.
Notation "x <- c1 ;; c2" := (rbind c1 (fun x => c2))
  (at level 61, c1 at next level, right associativity) : result_scope.

Definition TypeError : error := lit "TypeError".
Definition InvalidChild : error := lit "Objects are not valid as a React child".

(** [v.k] for the property names the components read, none of which an
    array, a string, a number or a boolean has; [None] is [undefined]. *)
Definition member (v : json) (k : string) : result (option json) :=
  match v with
  | JNull => Error TypeError
  | JObj members => Value (assoc (lit k) members)
  | _ => Value None
  end.

Definition index_key (i : nat) : jsstring :=
  lit (NilZero.string_of_uint (Nat.to_uint i)).

Fixpoint indexed {A} (f : A -> json) (i : nat) (l : list A)
  : list (jsstring * json) :=
  match l with
  | [] => []
  | x :: l' => (index_key i, f x) :: indexed f (S i) l'
  end.

(** [Object.entries(v)]; the members of a [JObj] are its own properties in
    property order. *)
Definition entries (v : option json) : result (list (jsstring * json)) :=
  match v with
  | None | Some JNull => Error TypeError
  | Some (JObj members) => Value members
  | Some (JArr items) => Value (indexed (fun x => x) 0 items)
  | Some (JStr s) => Value (indexed (fun c => JStr [c]) 0 s)
  | Some (JBool _) | Some (JNum _) => Value []
  end.

(** The receiver of [v.map(...)]: only an array has [map]. *)
Definition mapped (v : option json) : result (list json) :=
  match v with
  | Some (JArr items) => Value items
  | _ => Error TypeError
  end.

(** What React accepts as a child: anything but an object, arrays being
    rendered item by item. *)
Fixpoint renderable (v : json) : bool :=
  match v with
  | JObj _ => false
  | JArr items =>
      (fix all (l : list json) : bool :=
         match l with
         | [] => true
         | x :: l' => renderable x && all l'
         end) items
  | _ => true
  end.

Definition renderable_child (v : option json) : bool :=
  match v with
  | None => true
  | Some j => renderable j
  end.

(** Whether the template [`${v}%`] evaluates.  [ToString] of an object
    calls its [toString]; a member of that name in a parsed body hides
    the inherited method and is not callable, and then [ToString] throws.
    An array is joined, every item converted in turn, [null] to the empty
    string. *)
Fixpoint stringifiable (v : json) : bool :=
  match v with
  | JObj members =>
      match assoc (lit "toString") members with
      | Some _ => false
      | None => true
      end
  | JArr items =>
      (fix all (l : list json) : bool :=
         match l with
         | [] => true
         | x :: l' => stringifiable x && all l'
         end) items
  | _ => true
  end.

(** The [width] templates of the breakdown rows, evaluated while the rows
    are built. *)
Definition width_templates (rows : list (jsstring * json)) : result unit :=
  if forallb (fun kv => stringifiable (snd kv)) rows then Value tt
  else Error TypeError.

Module Panel.
(** One row of the score breakdown: the label, the value inside the
    [width] template, the value shown. *)
Record row := mkRow { label : jsstring; width : json; value : json }.

(** The results panel: every slot holds the expression the JSX puts
    there. *)
Record t := mk {
  candidate_name : option json;
  ats_score : option json;
  score_breakdown : list row;
  strengths : list json;
  gaps : list json;
  recommendations : list json;
  matching_keywords : list json;
  missing_keywords : list json;
  overall_assessment : option json
}.

Definition children_ok (p : t) : bool :=
  renderable_child (candidate_name p)
  && renderable_child (ats_score p)
  && forallb (fun r => renderable (value r)) (score_breakdown p)
  && forallb renderable (strengths p)
  && forallb renderable (gaps p)
  && forallb renderable (recommendations p)
  && forallb renderable (matching_keywords p)
  && forallb renderable (missing_keywords p)
  && renderable_child (overall_assessment p).
End Panel.

(** The JSX of the results panel, for a truthy [results]. *)
Definition results_elements (results : json) : result Panel.t :=
  (candidate_name <- member results "candidate_name" ;;
   ats_score <- member results "ats_score" ;;
   score_breakdown <- member results "score_breakdown" ;;
   rows <- entries score_breakdown ;;
   _ <- width_templates rows ;;
   strengths <- member results "strengths" ;;
   strengths <- mapped strengths ;;
   gaps <- member results "gaps" ;;
   gaps <- mapped gaps ;;
   recommendations <- member results "recommendations" ;;
   recommendations <- mapped recommendations ;;
   matching_keywords <- member results "matching_keywords" ;;
   matching_keywords <- mapped matching_keywords ;;
   missing_keywords <- member results "missing_keywords" ;;
   missing_keywords <- mapped missing_keywords ;;
   overall_assessment <- member results "overall_assessment" ;;
   Value (Panel.mk candidate_name ats_score
            (map (fun kv =>
                    Panel.mkRow (replace (fst kv) (lit "_") (lit " "))
                      (snd kv) (snd kv)) rows)
            strengths gaps recommendations matching_keywords
            missing_keywords overall_assessment))%R.

(** The panel on screen: React rejects an object among the children. *)
Definition results_panel (results : json) : result Panel.t :=
  (p <- results_elements results ;;
   if Panel.children_ok p then Value p else Error InvalidChild)%R.

(** [ResultsComponent]. *)
Inductive ResultsView :=
| ResultsPlaceholder
| ResultsShown (p : Panel.t).

Definition ResultsComponent (results : json) : result ResultsView :=
  if negb (truthy results) then Value ResultsPlaceholder
  else (p <- results_panel results ;; Value (ResultsShown p))%R.

(** The members of the [fileContent] object. *)
Definition content_url (c : FileContent) : option objurl :=
  match c with
  | PdfContent u | DocumentContent _ _ u => Some u
  | TextContent _ => None
  end.

Definition content_content (c : FileContent) : option jsstring :=
  match c with
  | TextContent t => Some t
  | _ => None
  end.

Definition content_name (c : FileContent) : option jsstring :=
  match c with
  | DocumentContent n _ _ => Some n
  | _ => None
  end.

Definition content_size (c : FileContent) : option N :=
  match c with
  | DocumentContent _ sz _ => Some sz
  | _ => None
  end.

Inductive Piece :=
| PdfFrame (src : option objurl)
| TextBlock (content : option jsstring)
| DocumentCard (name : option jsstring) (size : option N)
    (href : option objurl)
| DocumentOutline (name : option jsstring).

(** The three [fileContent.type === ... && ...] children. *)
Definition content_pieces (c : FileContent) : list Piece :=
  (if str_eqb (content_type c) (lit "pdf")
   then [PdfFrame (content_url c)] else [])
  ++ (if str_eqb (content_type c) (lit "text")
      then [TextBlock (content_content c)] else [])
  ++ (if str_eqb (content_type c) (lit "document")
      then [DocumentCard (content_name c) (content_size c) (content_url c)]
      else []).

(** The three [fileContent.type === ... && ...] children behind the scan
    line: the frame, the text, and for a document its name over grey
    bars, without size or link. *)
Definition scanning_pieces (c : FileContent) : list Piece :=
  (if str_eqb (content_type c) (lit "pdf")
   then [PdfFrame (content_url c)] else [])
  ++ (if str_eqb (content_type c) (lit "text")
      then [TextBlock (content_content c)] else [])
  ++ (if str_eqb (content_type c) (lit "document")
      then [DocumentOutline (content_name c)]
      else []).

(** The content area of the file preview. *)
Inductive ContentView :=
| LoadingPreview
| ErrorPanel (message : jsstring)
| Shown (pieces : list Piece)
| FileReady.

Definition option_truthy (o : option jsstring) : bool :=
  match o with
  | Some s => str_truthy s
  | None => false
  end.

Definition preview_content (p : Preview.state) : ContentView :=
  if Preview.isLoadingPreview p then LoadingPreview
  else match Preview.previewError p with
       | Some msg =>
           if str_truthy msg then ErrorPanel msg
           else match Preview.fileContent p with
                | Some c => Shown (content_pieces c)
                | None => FileReady
                end
       | None =>
           match Preview.fileContent p with
           | Some c => Shown (content_pieces c)
           | None => FileReady
           end
       end.

(** What [ResumePreviewComponent] returns. *)
Inductive View :=
| NoFileView
| ScanningView (name : jsstring) (size : option N)
    (background : option (list Piece)) (lineTop : Z) (stops : Z * Z * Z)
| ResultsPanelView (p : Panel.t)
| FilePreviewView (f : File.t) (content : ContentView)
| NullView.

Definition is_some {A} (o : option A) : bool :=
  match o with Some _ => true | None => false end.

Definition ResumePreviewComponent_render (file : option File.t)
    (isLoading : bool) (results : json) (p : Preview.state) : result View :=
  if negb (is_some file) && negb (truthy results) then Value NoFileView
  else if isLoading then
    Value (ScanningView
             (match file with
              | Some f => if str_truthy (File.name f) then File.name f
                          else lit "Resume"
              | None => lit "Resume"
              end)
             (option_map File.size file)
             (option_map scanning_pieces (Preview.fileContent p))
             (Preview.scanPosition p)
             (Z.max 0 (Preview.scanPosition p - 10),
              Preview.scanPosition p,
              Z.min 100 (Preview.scanPosition p + 10)))
  else if truthy results then
    (panel <- results_panel results ;; Value (ResultsPanelView panel))%R
  else match file with
       | Some f => Value (FilePreviewView f (preview_content p))
       | None => Value NullView
       end.

(** The preview as the page renders it. *)
Definition render_preview (a : App) : result View :=
  ResumePreviewComponent_render (Page.file (page a))
    (Page.isLoading (page a)) (Page.results (page a)) (preview a).

(** ** The file input

    [accept=".pdf,.doc,.docx"]: the file picker offers the files whose
    name ends, letter case aside, in one of the listed extensions.  The
    attribute filters the picker only: no handler reads it. *)

Definition file_input_accept : jsstring := lit ".pdf,.doc,.docx".

Fixpoint split_on (sep : N) (s : jsstring) : list jsstring :=
  match s with
  | [] => [[]]
  | c :: s' =>
      if (c =? sep)%N then [] :: split_on sep s'
      else match split_on sep s' with
           | w :: ws => (c :: w) :: ws
           | [] => [[c]]
           end
  end.

Definition to_lower (c : N) : N :=
  if ((65 <=? c) && (c <=? 90))%N then (c + 32)%N else c.

Definition ends_with (s suffix : jsstring) : bool :=
  starts_with (rev suffix) (rev s).

Definition picker_offers (f : File.t) : bool :=
  existsb (ends_with (map to_lower (File.name f)))
    (split_on 44 file_input_accept).

(** ** Vocabulary of the properties *)

(** The fetches a trace contains, in order. *)
Fixpoint requests (t : list effect) : list Request.t :=
  match t with
  | [] => []
  | Fetch req :: t' => req :: requests t'
  | _ :: t' => requests t'
  end.

(** The request [scanResume(resumeFile, jd)] builds. *)
Definition scan_request (resumeFile : option File.t) (jd : jsstring)
  : Request.t :=
  Request.mk ScanResume.endpoint (lit "POST")
    [(lit "file", form_value_of_file resumeFile);
     (lit "job_description", FVString jd)].

(** The scans in flight: the pending promises of [scanResume]. *)
Definition is_scan (w : awaited) : bool :=
  match w with
  | OnFetch _ | OnJson _ => true
  | OnText _ => false
  end.

Definition scans_in_flight (a : App) : nat :=
  List.length (filter is_scan (Runtime.pending (runtime a))).

(** Only a fetch or a [console.error]. *)
Definition network_or_console (e : effect) : Prop :=
  match e with
  | Fetch _ | ConsoleError _ _ => True
  | _ => False
  end.

(** Sample data. *)
Definition sample_pdf : File.t :=
  File.mk 1 (lit "cv.pdf") (lit "application/pdf") 2048.

Definition sample_txt : File.t :=
  File.mk 2 (lit "cv.txt") (lit "text/plain") 512.

Definition sample_exe : File.t :=
  File.mk 3 (lit "setup.exe") (lit "application/x-msdownload") 4096.

Definition sample_jd : jsstring := lit "Rocq engineer".

(** A server that answers every request with [resp]; file reads fail. *)
Definition answering (resp : result Response.t) : Env :=
  mkEnv (fun _ => resp) (fun _ => Error (lit "NotReadableError")).

Definition server_error : Response.t :=
  Response.mk false (lit "Internal Server Error")
    (Value (JObj [(lit "detail", JStr (lit "scan failed"))])).

Definition sample_report : json :=
  JObj [(lit "candidate_name", JStr (lit "Ada"));
        (lit "ats_score", JNum (Qmake 85 1));
        (lit "score_breakdown",
         JObj [(lit "skills_match", JNum (Qmake 90 1));
               (lit "experience", JNum (Qmake 140 1))]);
        (lit "strengths", JArr [JStr (lit "Proofs")]);
        (lit "gaps", JArr []);
        (lit "recommendations", JArr [JStr (lit "Add keywords")]);
        (lit "matching_keywords", JArr [JStr (lit "Rocq")]);
        (lit "missing_keywords", JArr [JStr (lit "Lean")]);
        (lit "overall_assessment", JStr (lit "Good"))].

(** Readings of a response body: a member of an object, the items of an
    array member, the members of an object member. *)
Definition field (data : json) (k : string) : option json :=
  match data with
  | JObj members => assoc (lit k) members
  | _ => None
  end.

Definition items_of (v : option json) : list json :=
  match v with
  | Some (JArr items) => items
  | _ => []
  end.

Definition members_of (v : option json) : list (jsstring * json) :=
  match v with
  | Some (JObj members) => members
  | _ => []
  end.

(** The panel shows the body as it is. *)
Definition shown_verbatim (data : json) (p : Panel.t) : Prop :=
  Panel.ats_score p = field data "ats_score" /\
  map Panel.value (Panel.score_breakdown p) =
    map snd (members_of (field data "score_breakdown")) /\
  map Panel.width (Panel.score_breakdown p) =
    map snd (members_of (field data "score_breakdown")) /\
  Panel.strengths p = items_of (field data "strengths") /\
  Panel.gaps p = items_of (field data "gaps") /\
  Panel.recommendations p = items_of (field data "recommendations") /\
  Panel.matching_keywords p = items_of (field data "matching_keywords") /\
  Panel.missing_keywords p = items_of (field data "missing_keywords").

(** The shape the panel expects of a body: an object whose
    [score_breakdown] is an object and whose five lists are arrays, with
    nothing but renderable children in the places it displays. *)
Definition array_of_children (v : option json) : bool :=
  match v with
  | Some (JArr items) => forallb renderable items
  | _ => false
  end.

Definition object_of_children (v : option json) : bool :=
  match v with
  | Some (JObj members) => forallb (fun kv => renderable (snd kv)) members
  | _ => false
  end.

Definition report_shaped (data : json) : bool :=
  match data with
  | JObj _ =>
      renderable_child (field data "candidate_name")
      && renderable_child (field data "ats_score")
      && object_of_children (field data "score_breakdown")
      && array_of_children (field data "strengths")
      && array_of_children (field data "gaps")
      && array_of_children (field data "recommendations")
      && array_of_children (field data "matching_keywords")
      && array_of_children (field data "missing_keywords")
      && renderable_child (field data "overall_assessment")
  | _ => false
  end.

(** C2 as the claim words it: whatever body an ok response parses to, the
    results state becomes that body and the panel renders it verbatim. *)
Definition every_ok_body_is_rendered : Prop :=
  forall env s f jd resp data,
    fetch_result env (scan_request f jd) = Value resp ->
    Response.ok resp = true ->
    Response.json resp = Value data ->
    Page.results (page (exec (scanResume env f jd) s)) = data /\
    exists p, results_panel data = Value p /\ shown_verbatim data p.

Definition empty_report : Response.t :=
  Response.mk true (lit "OK") (Value (JObj [])).

Definition position_ok (p : Z) : Prop :=
  (0 <= p <= 100)%Z /\ Z.even p = true.

Record invariant (s : App) : Prop := mkInv {
  inv_jd : Upload.jd (upload s) = Page.jobDescription (page s);
  inv_file : Upload.file (upload s) = Page.file (page s);
  inv_position : position_ok (Preview.scanPosition (preview s));
  inv_idle :
    Page.isLoading (page s) = false ->
    scans_in_flight s = 0 /\
    Preview.scanPosition (preview s) = 0%Z /\
    Runtime.timers (runtime s) = [] /\
    Runtime.scanInterval (runtime s) = None;
  inv_busy :
    Page.isLoading (page s) = true ->
    scans_in_flight s = 1 /\
    exists id,
      Runtime.timers (runtime s) = [id] /\
      Runtime.scanInterval (runtime s) = Some id
}.

(** A request [scanResume] sends when called with a file and a job
    description that is not blank. *)
Definition scan_invocation (req : Request.t) : Prop :=
  exists f jd, req = scan_request (Some f) jd /\ trim jd <> [].

(** The effects touch neither the page nor the upload component. *)
Definition props_stable (m : M unit) : Prop :=
  forall s,
    outcome m s = Normal tt /\
    page (exec m s) = page s /\
    upload (exec m s) = upload s.

(** A sample session: a file is dropped, a job description typed, the
    scan started, the timer fires once. *)
Definition session_1 : App :=
  exec (dispatch (upload_handleDrop [sample_pdf])) initial.
Definition session_2 : App :=
  exec (dispatch (upload_handleJdChange sample_jd)) session_1.
Definition session_3 : App :=
  exec (dispatch (upload_submit_onClick session_2)) session_2.
Definition session_4 : App :=
  exec (dispatch ResumePreviewComponent.scanTick) session_3.

Definition session_history : list effect :=
  ((([] ++ trace (dispatch (upload_handleDrop [sample_pdf])) initial)
    ++ trace (dispatch (upload_handleJdChange sample_jd)) session_1)
   ++ trace (dispatch (upload_submit_onClick session_2)) session_2)
  ++ trace (dispatch ResumePreviewComponent.scanTick) session_3.

(** The turns a running scan takes part in: a tick of its timer or the
    settlement of one of its promises. *)
Inductive scan_turn : App -> App -> Prop :=
| turn_tick s id :
    In id (Runtime.timers (runtime s)) ->
    scan_turn s (exec (dispatch ResumePreviewComponent.scanTick) s)
| turn_fetch s l1 req l2 (r : result Response.t) :
    Runtime.pending (runtime s) = l1 ++ OnFetch req :: l2 ->
    scan_turn s
      (exec (dispatch (take_pending l1 l2 ;;
                       spawn (ScanResume.scanResume_afterFetch r))%M) s)
| turn_json s l1 resp l2 :
    Runtime.pending (runtime s) = l1 ++ OnJson resp :: l2 ->
    scan_turn s
      (exec (dispatch (take_pending l1 l2 ;;
                       spawn (ScanResume.scanResume_afterJson
                                (Response.json resp)))%M) s).

Inductive scan_turns : App -> App -> Prop :=
| turns_done s : scan_turns s s
| turns_next s s1 s2 : scan_turn s s1 -> scan_turns s1 s2 -> scan_turns s s2.

(** The part of the state a scan has no business with. *)
Definition bystander (s : App) :=
  (Page.file (page s), Page.jobDescription (page s), upload s,
   Preview.fileContent (preview s), Preview.fileUrl (preview s),
   Preview.isLoadingPreview (preview s), Preview.previewError (preview s)).

(** The sample session goes on: the server answers with an error. *)
Definition session_5 : App :=
  exec (dispatch (take_pending [] [] ;;
                  spawn (ScanResume.scanResume_afterFetch
                           (Value server_error)))%M) session_4.

(** ** More of the components, and vocabulary for their properties *)

(** [n] ticks of the scan timer, each a turn of the event loop. *)
Definition ticks (n : nat) (s : App) : App :=
  Nat.iter n (exec (dispatch ResumePreviewComponent.scanTick)) s.

(** The scanning view of [ResumePreviewComponent]. *)
Definition scanning_view (file : option File.t) (p : Preview.state) : View :=
  ScanningView
    (match file with
     | Some f => if str_truthy (File.name f) then File.name f
                 else lit "Resume"
     | None => lit "Resume"
     end)
    (option_map File.size file)
    (option_map scanning_pieces (Preview.fileContent p))
    (Preview.scanPosition p)
    (Z.max 0 (Preview.scanPosition p - 10),
     Preview.scanPosition p,
     Z.min 100 (Preview.scanPosition p + 10)).

(** The body of [ResumePreviewComponent] with its four tests as they are
    written, the last one [file && !isLoading && !results], and the final
    [return null]. *)
Definition ResumePreviewComponent_return (file : option File.t)
    (isLoading : bool) (results : json) (p : Preview.state) : result View :=
  if negb (is_some file) && negb (truthy results) then Value NoFileView
  else if isLoading then Value (scanning_view file p)
  else if truthy results then
    (panel <- results_panel results ;; Value (ResultsPanelView panel))%R
  else if is_some file && negb isLoading && negb (truthy results) then
    match file with
    | Some f => Value (FilePreviewView f (preview_content p))
    | None => Error TypeError
    end
  else Value NullView.

(** The dynamic parts of what [ResumeUploadComponent] returns. *)
Module UploadView.
Record t := mk {
  zoneHighlighted : bool;
  label : jsstring;
  fileInputDisabled : bool;
  textareaValue : jsstring;
  textareaDisabled : bool;
  buttonDisabled : bool;
  buttonText : jsstring
}.
End UploadView.

Definition ResumeUploadComponent_render (isLoading : bool)
    (u : Upload.state) : UploadView.t :=
  UploadView.mk
    (Upload.dragActive u)
    (match Upload.file u with
     | Some file => File.name file
     | None => lit "Drop your resume here or click to browse"
     end)
    isLoading
    (Upload.jd u)
    isLoading
    (ResumeUploadComponent.submit_disabled isLoading u)
    (if isLoading then lit "Scanning Resume..." else lit "Scan Resume").

(** The upload component as the page renders it. *)
Definition render_upload (a : App) : UploadView.t :=
  ResumeUploadComponent_render (Page.isLoading (page a)) (upload a).

(** While a scan runs a file is selected and the job description is not
    blank. *)
Definition scan_inputs_present (s : App) : Prop :=
  Page.isLoading (page s) = true ->
  (exists f, Upload.file (upload s) = Some f) /\
  trim (Upload.jd (upload s)) <> [].

(** The object URLs a trace revokes, and the ones it creates. *)
Fixpoint revoked (t : list effect) : list objurl :=
  match t with
  | [] => []
  | RevokeObjectURL u :: t' => u :: revoked t'
  | _ :: t' => revoked t'
  end.

Fixpoint created (t : list effect) : list (File.t * objurl) :=
  match t with
  | [] => []
  | CreateObjectURL f u :: t' => (f, u) :: created t'
  | _ :: t' => created t'
  end.

(** The turn of a drop. *)
Definition drop (files : list File.t) (s : App) : App :=
  exec (dispatch (upload_handleDrop files)) s.

Definition drop_trace (files : list File.t) (s : App) : list effect :=
  trace (dispatch (upload_handleDrop files)) s.

(** The turn in which the read of a text file settles, the promise being
    the one after [l1] in the pending list. *)
Definition text_settles (l1 l2 : list awaited) (r : result jsstring)
    (s : App) : App :=
  exec (dispatch (take_pending l1 l2 ;;
                  spawn (ResumePreviewComponent.generatePreview_afterText r))%M)
    s.

(** The cells that hold object URLs, with the counter behind fresh ones. *)
Definition url_cells (s : App) :=
  (Preview.fileUrl (preview s), Runtime.cleanupFileUrl (runtime s),
   Runtime.nextUrl (runtime s)).

(** Every object URL the application holds has been handed out. *)
Definition urls_issued (s : App) : Prop :=
  (forall v, Preview.fileUrl (preview s) = Some v ->
             (v < Runtime.nextUrl (runtime s))%N) /\
  (forall v, Runtime.cleanupFileUrl (runtime s) = Some v ->
             (v < Runtime.nextUrl (runtime s))%N).

(** The turn of a change event of the file input. *)
Definition change (files : list File.t) (s : App) : App :=
  exec (dispatch (upload_handleChange files)) s.

(** The turn of a drag event. *)
Definition drag (type : jsstring) (s : App) : App :=
  exec (dispatch (upload_handleDrag type)) s.

Definition set_dragActive (b : bool) (s : App) : App :=
  on_upload (fun u => Upload.mk b (Upload.file u) (Upload.jd u)) s.

(** The sample session ends well instead: the server answers with the
    report, and its body is read. *)
Definition report_response : Response.t :=
  Response.mk true (lit "OK") (Value sample_report).

Definition session_6 : App :=
  exec (dispatch (take_pending [] [] ;;
                  spawn (ScanResume.scanResume_afterFetch
                           (Value report_response)))%M) session_4.

Definition session_7 : App :=
  exec (dispatch (take_pending [] [] ;;
                  spawn (ScanResume.scanResume_afterJson
                           (Response.json report_response)))%M) session_6.

(** The sample session, another way: an executable is dropped while the
    scan runs. *)
Definition session_8 : App :=
  exec (dispatch (upload_handleDrop [sample_exe])) session_4.

(** Effects that are not a rejected promise left without a handler. *)
Definition handled (e : effect) : Prop :=
  match e with
  | UnhandledRejection _ => False
  | _ => True
  end.

(** The error messages a trace logs to the console. *)
Fixpoint logged (t : list effect) : list (jsstring * jsstring) :=
  match t with
  | [] => []
  | ConsoleError label detail :: t' => (label, detail) :: logged t'
  | _ :: t' => logged t'
  end.

(** * Properties *)

(** ** Strings *)

Lemma str_eqb_refl (a : jsstring) : str_eqb a a = true.
Proof.
  induction a as [|x a IH]; simpl; [reflexivity|].
  now rewrite N.eqb_refl, IH.
Qed.

Lemma str_eqb_eq (a b : jsstring) : str_eqb a b = true <-> a = b.
Proof.
  split; [|intros ->; apply str_eqb_refl].
  revert b; induction a as [|x a IH]; intros [|y b]; simpl; try discriminate.
  - reflexivity.
  - intros H. apply andb_true_iff in H as [Hx Hr].
    apply N.eqb_eq in Hx. apply IH in Hr. now subst.
Qed.

Lemma trimStart_nil_iff (s : jsstring) :
  trimStart s = [] <-> forallb is_whitespace s = true.
Proof.
  induction s as [|c s IH]; simpl; [tauto|].
  destruct (is_whitespace c); simpl; [exact IH|].
  split; discriminate.
Qed.

Lemma forallb_trimStart (s : jsstring) :
  forallb is_whitespace (trimStart s) = forallb is_whitespace s.
Proof.
  induction s as [|c s IH]; simpl; [reflexivity|].
  destruct (is_whitespace c) eqn:E; simpl; [exact IH|].
  now rewrite E.
Qed.

Lemma forallb_rev {A} (p : A -> bool) (l : list A) :
  forallb p (rev l) = forallb p l.
Proof.
  induction l as [|x l IH]; simpl; [reflexivity|].
  rewrite forallb_app, IH. simpl. rewrite andb_true_r. apply andb_comm.
Qed.

(** [trim] leaves nothing exactly on the strings made of white space. *)
Lemma trim_nil_iff (s : jsstring) :
  trim s = [] <-> forallb is_whitespace s = true.
Proof.
  unfold trim, trimEnd.
  rewrite <- (forallb_trimStart s), <- (forallb_rev _ (trimStart s)).
  rewrite <- trimStart_nil_iff.
  split; intros H.
  - apply (f_equal (@rev N)) in H. now rewrite rev_involutive in H.
  - now rewrite H.
Qed.

Lemma str_truthy_trim (s : jsstring) :
  str_truthy (trim s) = negb (forallb is_whitespace s).
Proof.
  destruct (forallb is_whitespace s) eqn:E.
  - apply trim_nil_iff in E. now rewrite E.
  - destruct (trim s) eqn:T; [|reflexivity].
    apply trim_nil_iff in T. congruence.
Qed.

(** ** Monad plumbing *)

Lemma same_file_refl (f : option File.t) : same_file f f = true.
Proof. destruct f; simpl; [apply N.eqb_refl|reflexivity]. Qed.

Lemma requests_app (t1 t2 : list effect) :
  requests (t1 ++ t2) = requests t1 ++ requests t2.
Proof.
  induction t1 as [|e t1 IH]; simpl; [reflexivity|].
  destruct e; simpl; now rewrite ?IH.
Qed.

(** ** [scanResume], segment by segment and as a whole *)

Lemma scanResume_call_eq f jd s :
  ScanResume.scanResume_call f jd s =
  (Await (OnFetch (scan_request f jd)),
   exec (ScanResume.setIsLoading true) s,
   [Fetch (scan_request f jd)]).
Proof. reflexivity. Qed.

Lemma scanResume_afterFetch_error e s :
  ScanResume.scanResume_afterFetch (Error e) s =
  (Normal tt, exec (ScanResume.setIsLoading false) s,
   [ConsoleError (lit "Error:") e]).
Proof. reflexivity. Qed.

Lemma scanResume_afterFetch_value resp s :
  ScanResume.scanResume_afterFetch (Value resp) s =
  if Response.ok resp then (Await (OnJson resp), s, [])
  else (Normal tt, exec (ScanResume.setIsLoading false) s,
        [ConsoleError (lit "Error scanning resume:")
           (Response.statusText resp)]).
Proof.
  unfold ScanResume.scanResume_afterFetch, try_catch_finally, try_finally,
    try_catch, bind.
  cbn. destruct (Response.ok resp); reflexivity.
Qed.

Lemma scanResume_afterJson_eq r s :
  ScanResume.scanResume_afterJson r s =
  match r with
  | Value data =>
      (Normal tt,
       exec (ScanResume.setIsLoading false)
         (exec (ScanResume.setResults data) s), [])
  | Error e =>
      (Normal tt, exec (ScanResume.setIsLoading false) s,
       [ConsoleError (lit "Error:") e])
  end.
Proof. destruct r; reflexivity. Qed.

(** Every run of [scanResume] completes, along one of four paths. *)
Lemma scanResume_run env f jd s :
  let req := scan_request f jd in
  let s1 := exec (ScanResume.setIsLoading true) s in
  scanResume env f jd s =
  match fetch_result env req with
  | Error e =>
      (Normal tt, exec (ScanResume.setIsLoading false) s1,
       [Fetch req; ConsoleError (lit "Error:") e])
  | Value resp =>
      if Response.ok resp then
        match Response.json resp with
        | Value data =>
            (Normal tt,
             exec (ScanResume.setIsLoading false)
               (exec (ScanResume.setResults data) s1),
             [Fetch req])
        | Error e =>
            (Normal tt, exec (ScanResume.setIsLoading false) s1,
             [Fetch req; ConsoleError (lit "Error:") e])
        end
      else
        (Normal tt, exec (ScanResume.setIsLoading false) s1,
         [Fetch req;
          ConsoleError (lit "Error scanning resume:")
            (Response.statusText resp)])
  end.
Proof.
  intros req s1. unfold scanResume.
  cbv beta iota delta [run_async]. rewrite scanResume_call_eq.
  fold req s1. unfold resume.
  destruct (fetch_result env req) as [resp|e].
  - rewrite scanResume_afterFetch_value.
    destruct (Response.ok resp); [|reflexivity].
    unfold resume. rewrite scanResume_afterJson_eq.
    destruct (Response.json resp); reflexivity.
  - rewrite scanResume_afterFetch_error. reflexivity.
Qed.

(** C1. Every run of [scanResume] on a file and a job description
    completes and issues exactly one HTTP request, the POST to
    http://localhost:5000/scan-resume/ whose form holds the file under
    [file] and the job description under [job_description]; besides it
    the run only logs to the console, and the results it leaves are the
    old ones or the JSON of the response: nothing is computed locally. *)
Theorem scan_issues_exactly_one_post env s f jd :
  let run := scanResume env (Some f) jd in
  let req :=
    Request.mk (lit "http://localhost:5000/scan-resume/") (lit "POST")
      [(lit "file", FVFile f); (lit "job_description", FVString jd)] in
  outcome run s = Normal tt /\
  requests (trace run s) = [req] /\
  Forall network_or_console (trace run s) /\
  (Page.results (page (exec run s)) = Page.results (page s) \/
   exists resp,
     fetch_result env req = Value resp /\
     Response.json resp = Value (Page.results (page (exec run s)))).
Proof.
  intros run req. unfold run, outcome, trace, exec.
  rewrite scanResume_run. change (scan_request (Some f) jd) with req.
  destruct (fetch_result env req) as [resp|e] eqn:E.
  - destruct (Response.ok resp).
    + destruct (Response.json resp) as [data|e] eqn:J.
      * repeat split; try reflexivity.
        -- repeat constructor.
        -- right. exists resp. split; [reflexivity|exact J].
      * repeat split; try reflexivity.
        -- repeat constructor.
        -- now left.
    + repeat split; try reflexivity.
      * repeat constructor.
      * now left.
  - repeat split; try reflexivity.
    + repeat constructor.
    + now left.
Qed.

(** C3. A run of [scanResume] completes with [isLoading] false on every
    path; when the fetch throws or the response is not ok, the results
    state, and so what [ResultsComponent] shows for it (the earlier
    results or the placeholder), is what it was before. *)
Theorem scan_failure_keeps_results env s f jd :
  let run := scanResume env f jd in
  outcome run s = Normal tt /\
  Page.isLoading (page (exec run s)) = false /\
  ((forall resp,
      fetch_result env (scan_request f jd) = Value resp ->
      Response.ok resp = false) ->
   Page.results (page (exec run s)) = Page.results (page s) /\
   ResultsComponent (Page.results (page (exec run s))) =
   ResultsComponent (Page.results (page s))).
Proof.
  intros run. unfold run, outcome, exec.
  rewrite scanResume_run.
  destruct (fetch_result env (scan_request f jd)) as [resp|e] eqn:E.
  - destruct (Response.ok resp) eqn:Ok.
    + destruct (Response.json resp);
        (split; [reflexivity|split; [reflexivity|]]);
        intros H; specialize (H resp eq_refl); congruence.
    + split; [reflexivity|split; [reflexivity|]]. intros _. now split.
  - split; [reflexivity|split; [reflexivity|]]. intros _. now split.
Qed.

Lemma scan_failure_keeps_results_witness :
  let env := answering (Value server_error) in
  let run := scanResume env (Some sample_pdf) sample_jd in
  Page.results (page (exec run initial)) = JNull /\
  ResultsComponent (Page.results (page (exec run initial))) =
  Value ResultsPlaceholder.
Proof.
  intros env run.
  destruct (scan_failure_keeps_results env initial (Some sample_pdf) sample_jd)
    as (_ & _ & H).
  destruct H as [H1 H2].
  - intros resp E. simpl in E. injection E as <-. reflexivity.
  - split; [exact H1|]. fold run in H2. rewrite H2. reflexivity.
Defined.

(** ** The results panel *)

Lemma forallb_map {A B} (p : B -> bool) (g : A -> B) (l : list A) :
  forallb p (map g l) = forallb (fun x => p (g x)) l.
Proof. induction l as [|x l IH]; simpl; [reflexivity|now rewrite IH]. Qed.

(** What React can render can be put in a template. *)
Lemma renderable_stringifiable :
  forall v, renderable v = true -> stringifiable v = true.
Proof.
  fix IH 1. intros [| | | |items|m]; simpl; try reflexivity; try discriminate.
  induction items as [|x items IHl]; simpl; [reflexivity|].
  intros H. apply andb_true_iff in H as [Hx Hr].
  rewrite (IH x Hx). exact (IHl Hr).
Qed.

Lemma renderable_rows_templates (rows : list (jsstring * json)) :
  forallb (fun kv => renderable (snd kv)) rows = true ->
  width_templates rows = Value tt.
Proof.
  intros H. unfold width_templates.
  replace (forallb (fun kv => stringifiable (snd kv)) rows) with true;
    [reflexivity|].
  symmetry. induction rows as [|kv rows IH]; simpl in *; [reflexivity|].
  apply andb_true_iff in H as [Hx Hr].
  now rewrite (renderable_stringifiable _ Hx), (IH Hr).
Qed.

Lemma results_elements_shaped data :
  report_shaped data = true ->
  exists p,
    results_elements data = Value p /\
    Panel.children_ok p = true /\
    Panel.candidate_name p = field data "candidate_name" /\
    Panel.overall_assessment p = field data "overall_assessment" /\
    shown_verbatim data p.
Proof.
  destruct data as [| | | | |m]; try discriminate.
  unfold shown_verbatim, report_shaped, results_elements, member, field.
  intros H. repeat (apply andb_true_iff in H as [H ?]).
  destruct (assoc (lit "score_breakdown") m) as [[| | | | |rows]|];
    try discriminate.
  destruct (assoc (lit "strengths") m) as [[| | | |st|]|]; try discriminate.
  destruct (assoc (lit "gaps") m) as [[| | | |gp|]|]; try discriminate.
  destruct (assoc (lit "recommendations") m) as [[| | | |rc|]|];
    try discriminate.
  destruct (assoc (lit "matching_keywords") m) as [[| | | |mk|]|];
    try discriminate.
  destruct (assoc (lit "missing_keywords") m) as [[| | | |ms|]|];
    try discriminate.
  cbn [rbind entries].
  rewrite (renderable_rows_templates rows)
    by (match goal with
        | K : object_of_children (Some (JObj rows)) = true |- _ => exact K
        end).
  eexists. split; [reflexivity|].
  cbn [rbind entries mapped Panel.candidate_name Panel.ats_score
       Panel.score_breakdown Panel.strengths Panel.gaps
       Panel.recommendations Panel.matching_keywords Panel.missing_keywords
       Panel.overall_assessment members_of items_of
       array_of_children object_of_children] in *.
  split.
  - unfold Panel.children_ok.
    cbn [Panel.candidate_name Panel.ats_score
       Panel.score_breakdown Panel.strengths Panel.gaps
       Panel.recommendations Panel.matching_keywords Panel.missing_keywords
       Panel.overall_assessment].
    rewrite forallb_map. cbn [Panel.value].
    repeat (apply andb_true_iff; split); assumption.
  - repeat split; try reflexivity;
      rewrite map_map; reflexivity.
Qed.

(** C2, counterexample: the body [{}] of an ok response is stored, and
    the panel throws on it ([Object.entries(undefined)]) instead of
    rendering it. *)
Lemma every_ok_body_is_rendered_fails : ~ every_ok_body_is_rendered.
Proof.
  intros H.
  destruct (H (answering (Value empty_report)) initial (Some sample_pdf)
              sample_jd empty_report (JObj []) eq_refl eq_refl eq_refl)
    as (_ & p & Hp & _).
  discriminate Hp.
Qed.

(** C2, amended. When an ok response parses to a body, the results state
    is set to exactly that body; and when the body has the shape of a
    report, the preview renders the results panel with the [ats_score],
    the [score_breakdown] values (shown and as bar widths), the
    strengths, gaps, recommendations and both keyword lists taken
    verbatim from it. *)
Theorem ok_body_is_stored_and_rendered env s f jd resp data :
  fetch_result env (scan_request f jd) = Value resp ->
  Response.ok resp = true ->
  Response.json resp = Value data ->
  let s' := exec (scanResume env f jd) s in
  Page.results (page s') = data /\
  (report_shaped data = true ->
   exists p,
     render_preview s' = Value (ResultsPanelView p) /\
     results_panel data = Value p /\
     shown_verbatim data p).
Proof.
  intros E Ok J s'.
  assert (Hs : Page.results (page s') = data /\
               Page.isLoading (page s') = false).
  { unfold s', exec. rewrite scanResume_run, E, Ok, J. split; reflexivity. }
  destruct Hs as [Hr Hl]. split; [exact Hr|].
  intros Sh.
  destruct (results_elements_shaped data Sh) as (p & Hp & Hc & _ & _ & Hv).
  assert (Hpanel : results_panel data = Value p).
  { unfold results_panel. rewrite Hp. simpl. now rewrite Hc. }
  exists p. split; [|split; assumption].
  unfold render_preview, ResumePreviewComponent_render.
  rewrite Hr, Hl, Hpanel.
  assert (T : truthy data = true) by (destruct data; try discriminate; reflexivity).
  rewrite T. rewrite andb_false_r. reflexivity.
Qed.

Lemma ok_body_is_stored_and_rendered_witness :
  let env :=
    answering (Value (Response.mk true (lit "OK") (Value sample_report))) in
  let s' := exec (scanResume env (Some sample_pdf) sample_jd) initial in
  Page.results (page s') = sample_report /\
  exists p,
    render_preview s' = Value (ResultsPanelView p) /\
    Panel.ats_score p = Some (JNum (Qmake 85 1)) /\
    map Panel.value (Panel.score_breakdown p) =
      [JNum (Qmake 90 1); JNum (Qmake 140 1)].
Proof.
  intros env s'.
  destruct (ok_body_is_stored_and_rendered env initial (Some sample_pdf)
              sample_jd eq_refl eq_refl eq_refl) as [Hr Hp].
  split; [exact Hr|].
  destruct (Hp eq_refl) as (p & Hv & _ & Ha & Hb & _).
  exists p. split; [exact Hv|]. split; [exact Ha|exact Hb].
Defined.

(** ** The invariant of the running application *)

Lemma run_eta {A} (m : M A) s : m s = (outcome m s, exec m s, trace m s).
Proof. unfold outcome, exec, trace. now destruct (m s) as [[c s1] t]. Qed.

(** A turn of the event loop whose handler completes is the handler
    followed by the effects. *)
Lemma dispatch_run (h : M unit) s :
  outcome h s = Normal tt ->
  exec (dispatch h) s = exec (useEffects s) (exec h s) /\
  trace (dispatch h) s = trace h s ++ trace (useEffects s) (exec h s).
Proof.
  intros H. unfold exec at 1, trace at 1. unfold dispatch, bind, get.
  rewrite (run_eta h s), H. cbn [app].
  rewrite (run_eta (useEffects s) (exec h s)). split; reflexivity.
Qed.

(** The [file] effect touches neither the page nor the upload component,
    the scan position, the timers or the scans in flight, and sends
    nothing. *)
Lemma fileEffect_frame f s :
  let m := ResumePreviewComponent.fileEffect f in
  outcome m s = Normal tt /\
  page (exec m s) = page s /\
  upload (exec m s) = upload s /\
  Preview.scanPosition (preview (exec m s)) =
    Preview.scanPosition (preview s) /\
  Runtime.timers (runtime (exec m s)) = Runtime.timers (runtime s) /\
  Runtime.scanInterval (runtime (exec m s)) =
    Runtime.scanInterval (runtime s) /\
  scans_in_flight (exec m s) = scans_in_flight s /\
  requests (trace m s) = [].
Proof.
  destruct f as [f|]; [|repeat split].
  unfold ResumePreviewComponent.fileEffect,
    ResumePreviewComponent.generatePreview_call, outcome, exec, trace.
  cbn -[lit includes str_eqb].
  destruct (str_eqb _ _); cbn -[lit includes str_eqb]; [repeat split|].
  destruct (includes _ _); cbn -[lit includes str_eqb]; [|repeat split].
  repeat split.
  unfold scans_in_flight. simpl. rewrite filter_app, length_app. simpl. lia.
Qed.

Lemma fileEffect_cleanup_run s :
  ResumePreviewComponent.fileEffect_cleanup s =
  (Normal tt, s, trace ResumePreviewComponent.fileEffect_cleanup s) /\
  requests (trace ResumePreviewComponent.fileEffect_cleanup s) = [].
Proof.
  unfold ResumePreviewComponent.fileEffect_cleanup, trace, bind, get.
  destruct (Runtime.cleanupFileUrl (runtime s)); split; reflexivity.
Qed.

Lemma useEffects_unchanged prev a :
  same_file (Page.file (page prev)) (Page.file (page a)) = true ->
  Page.isLoading (page prev) = Page.isLoading (page a) ->
  exec (useEffects prev) a = a /\ trace (useEffects prev) a = [].
Proof.
  intros Hf Hl. unfold exec, trace, useEffects, bind, get.
  rewrite Hf, Hl, eqb_reflx. split; reflexivity.
Qed.

Lemma useEffects_file prev a :
  same_file (Page.file (page prev)) (Page.file (page a)) = false ->
  Page.isLoading (page prev) = Page.isLoading (page a) ->
  exec (useEffects prev) a =
    exec (ResumePreviewComponent.fileEffect (Page.file (page a))) a /\
  requests (trace (useEffects prev) a) = [].
Proof.
  intros Hf Hl. unfold exec, trace, useEffects, bind, get.
  rewrite Hf, Hl, eqb_reflx. cbn [negb app].
  destruct (fileEffect_cleanup_run a) as [-> Hc].
  cbn [ret app].
  rewrite (run_eta (ResumePreviewComponent.fileEffect _) a).
  destruct (fileEffect_frame (Page.file (page a)) a) as (-> & _ & _ & _ & _ & _ & _ & Hr).
  cbn. split; [reflexivity|].
  rewrite !app_nil_r, requests_app, Hc, Hr. reflexivity.
Qed.

Lemma useEffects_loading prev a :
  same_file (Page.file (page prev)) (Page.file (page a)) = true ->
  Page.isLoading (page prev) = negb (Page.isLoading (page a)) ->
  exec (useEffects prev) a =
    exec (ResumePreviewComponent.scanEffect (Page.isLoading (page a)))
      (exec ResumePreviewComponent.scanEffect_cleanup a) /\
  requests (trace (useEffects prev) a) = [].
Proof.
  intros Hf Hl. unfold exec, trace, useEffects, bind, get.
  rewrite Hf, Hl.
  replace (Bool.eqb (negb (Page.isLoading (page a))) (Page.isLoading (page a)))
    with false by (destruct (Page.isLoading (page a)); reflexivity).
  cbn [negb app ret].
  unfold ResumePreviewComponent.scanEffect_cleanup, bind, get.
  destruct (Runtime.scanInterval (runtime a));
    destruct (Page.isLoading (page a)); split; reflexivity.
Qed.

Lemma invariant_frame s s' :
  invariant s ->
  Page.file (page s') = Page.file (page s) ->
  Page.jobDescription (page s') = Page.jobDescription (page s) ->
  Page.isLoading (page s') = Page.isLoading (page s) ->
  Upload.file (upload s') = Upload.file (upload s) ->
  Upload.jd (upload s') = Upload.jd (upload s) ->
  Preview.scanPosition (preview s') = Preview.scanPosition (preview s) ->
  Runtime.timers (runtime s') = Runtime.timers (runtime s) ->
  Runtime.scanInterval (runtime s') = Runtime.scanInterval (runtime s) ->
  scans_in_flight s' = scans_in_flight s ->
  invariant s'.
Proof.
  intros [Hjd Hf Hpos Hidle Hbusy] Hpf Hpj Hpl Huf Huj Hs Ht Hi Hn.
  constructor;
    rewrite ?Hpf, ?Hpj, ?Hpl, ?Huf, ?Huj, ?Hs, ?Ht, ?Hi, ?Hn; assumption.
Qed.

(** ** One turn of the event loop preserves the invariant *)

Lemma dispatch_plain (h : M unit) s :
  outcome h s = Normal tt ->
  same_file (Page.file (page s)) (Page.file (page (exec h s))) = true ->
  Page.isLoading (page s) = Page.isLoading (page (exec h s)) ->
  exec (dispatch h) s = exec h s /\ trace (dispatch h) s = trace h s.
Proof.
  intros Ho Hf Hl.
  destruct (dispatch_run h s Ho) as [-> ->].
  destruct (useEffects_unchanged s (exec h s) Hf Hl) as [-> ->].
  now rewrite app_nil_r.
Qed.

Lemma inv_drag s type :
  invariant s ->
  invariant (exec (dispatch (upload_handleDrag type)) s) /\
  requests (trace (dispatch (upload_handleDrag type)) s) = [].
Proof.
  intros I.
  assert (H : outcome (upload_handleDrag type) s = Normal tt /\
             page (exec (upload_handleDrag type) s) = page s /\
             Upload.file (upload (exec (upload_handleDrag type) s)) = Upload.file (upload s) /\
             Upload.jd (upload (exec (upload_handleDrag type) s)) = Upload.jd (upload s) /\
             preview (exec (upload_handleDrag type) s) = preview s /\
             runtime (exec (upload_handleDrag type) s) = runtime s /\
             requests (trace (upload_handleDrag type) s) = []).
  { unfold upload_handleDrag, ResumeUploadComponent.handleDrag, outcome, exec, trace.
    cbn -[lit str_eqb].
    destruct (str_eqb type (lit "dragenter") || str_eqb type (lit "dragover")); [repeat split|].
    destruct (str_eqb type (lit "dragleave")); repeat split. }
  destruct H as (Ho & Hp & Huf & Huj & Hv & Hr & Ht).
  destruct (@dispatch_plain _ s Ho) as [-> ->].
  - rewrite Hp. apply same_file_refl.
  - now rewrite Hp.
  - split; [|exact Ht].
    apply (@invariant_frame s _ I); rewrite ?Hp, ?Hv, ?Hr; try assumption; try reflexivity.
    unfold scans_in_flight. now rewrite Hr.
Qed.

Lemma inv_file_set (h : M unit) s f :
  invariant s ->
  outcome h s = Normal tt ->
  Page.file (page (exec h s)) = Some f ->
  Upload.file (upload (exec h s)) = Some f ->
  Page.jobDescription (page (exec h s)) = Page.jobDescription (page s) ->
  Page.isLoading (page (exec h s)) = Page.isLoading (page s) ->
  Upload.jd (upload (exec h s)) = Upload.jd (upload s) ->
  preview (exec h s) = preview s ->
  runtime (exec h s) = runtime s ->
  requests (trace h s) = [] ->
  invariant (exec (dispatch h) s) /\ requests (trace (dispatch h) s) = [].
Proof.
  intros I Ho Hpf Huf Hpj Hpl Huj Hv Hr Ht.
  assert (I1 : invariant (exec h s)).
  { destruct I as [Hjd Hf Hpos Hidle Hbusy].
    constructor; unfold scans_in_flight; rewrite ?Hpf, ?Huf, ?Hpj, ?Hpl, ?Huj, ?Hv, ?Hr; auto. }
  destruct (dispatch_run h s Ho) as [-> ->].
  destruct (same_file (Page.file (page s)) (Page.file (page (exec h s)))) eqn:E.
  - destruct (useEffects_unchanged s (exec h s) E (eq_sym Hpl)) as [-> ->].
    rewrite app_nil_r. now split.
  - destruct (useEffects_file s (exec h s) E (eq_sym Hpl)) as [-> Hq].
    rewrite requests_app, Hq, Ht. split; [|reflexivity].
    destruct (fileEffect_frame (Page.file (page (exec h s))) (exec h s))
      as (_ & Fp & Fu & Fs & Ft & Fi & Fn & _).
    apply (@invariant_frame (exec h s) _ I1); rewrite ?Fp, ?Fu; auto.
Qed.

Lemma inv_drop s files :
  invariant s ->
  invariant (exec (dispatch (upload_handleDrop files)) s) /\
  requests (trace (dispatch (upload_handleDrop files)) s) = [].
Proof.
  intros I. destruct files as [|f files].
  - destruct (@dispatch_plain (upload_handleDrop []) s) as [-> ->];
      try reflexivity; [apply same_file_refl|].
    split; [|reflexivity].
    apply (@invariant_frame s _ I); reflexivity.
  - apply (@inv_file_set (upload_handleDrop (f :: files)) s f I); reflexivity.
Qed.

Lemma inv_change s files :
  invariant s ->
  invariant (exec (dispatch (upload_handleChange files)) s) /\
  requests (trace (dispatch (upload_handleChange files)) s) = [].
Proof.
  intros I. destruct files as [|f files].
  - destruct (@dispatch_plain (upload_handleChange []) s) as [-> ->];
      try reflexivity; [apply same_file_refl|].
    split; [|reflexivity].
    apply (@invariant_frame s _ I); reflexivity.
  - apply (@inv_file_set (upload_handleChange (f :: files)) s f I); reflexivity.
Qed.

Lemma inv_jd_change s value :
  invariant s ->
  invariant (exec (dispatch (upload_handleJdChange value)) s) /\
  requests (trace (dispatch (upload_handleJdChange value)) s) = [].
Proof.
  intros I.
  destruct (@dispatch_plain (upload_handleJdChange value) s) as [-> ->];
      try reflexivity; [apply same_file_refl|].
  split; [|reflexivity].
  destruct I as [Hjd Hf Hpos Hidle Hbusy]. constructor; auto.
Qed.

Lemma submit_enabled s :
  upload_submit_disabled s = false ->
  Page.isLoading (page s) = false /\
  trim (Upload.jd (upload s)) <> [] /\
  exists f, Upload.file (upload s) = Some f.
Proof.
  unfold upload_submit_disabled, ResumeUploadComponent.submit_disabled.
  intros H. apply orb_false_iff in H as [H Hl].
  apply orb_false_iff in H as [Hf Hj].
  split; [exact Hl|]. split.
  - intros E. rewrite E in Hj. discriminate.
  - destruct (Upload.file (upload s)) as [f|]; [now exists f|discriminate].
Qed.

Lemma inv_click s :
  invariant s ->
  upload_submit_disabled s = false ->
  invariant (exec (dispatch (upload_submit_onClick s)) s) /\
  Page.isLoading (page s) = false /\
  exists f jd,
    requests (trace (dispatch (upload_submit_onClick s)) s) =
      [scan_request (Some f) jd] /\
    trim jd <> [].
Proof.
  intros I G. destruct (submit_enabled s G) as (Hl & Hj & f & Hf).
  split; [|split; [exact Hl|]].
  - destruct (@dispatch_run (upload_submit_onClick s) s eq_refl) as [-> _].
    destruct (@useEffects_loading s (exec (upload_submit_onClick s) s)) as [-> _].
    + apply same_file_refl.
    + exact Hl.
    + destruct I as [Hjd Hfl Hpos Hidle Hbusy].
      destruct (Hidle Hl) as (Hn & Hp & Ht & Hi).
      destruct s as [[pf pjd pl pr] [ud uf uj] [fc fu ilp pe pos] [pend tm si cfu nt nu]].
      simpl in *. subst.
      constructor; simpl; auto; try discriminate.
      intros _. split; [|exists nt; split; reflexivity].
      unfold scans_in_flight in *. simpl in *.
      rewrite filter_app, length_app, Hn. reflexivity.
  - exists f, (Upload.jd (upload s)). split; [|exact Hj].
    destruct (@dispatch_run (upload_submit_onClick s) s eq_refl) as [_ ->].
    destruct (@useEffects_loading s (exec (upload_submit_onClick s) s)) as [_ Hq].
    + apply same_file_refl.
    + exact Hl.
    + rewrite requests_app, Hq, app_nil_r.
      unfold upload_submit_onClick, ResumeUploadComponent.submit_onClick.
      rewrite Hf. reflexivity.
Qed.

Lemma position_tick p :
  position_ok p ->
  position_ok (if (p >=? 100)%Z then 0%Z else (p + 2)%Z).
Proof.
  intros [R E]. destruct (Z.geb_spec p 100) as [G|G].
  - split; [lia|reflexivity].
  - split.
    + assert (p <> 99%Z) by (intros ->; discriminate). lia.
    + rewrite Z.even_add, E. reflexivity.
Qed.

Lemma inv_tick s id :
  invariant s ->
  In id (Runtime.timers (runtime s)) ->
  invariant (exec (dispatch ResumePreviewComponent.scanTick) s) /\
  requests (trace (dispatch ResumePreviewComponent.scanTick) s) = [].
Proof.
  intros I G.
  destruct (@dispatch_plain ResumePreviewComponent.scanTick s) as [-> ->];
    try reflexivity; [apply same_file_refl|].
  split; [|reflexivity].
  destruct I as [Hjd Hf Hpos Hidle Hbusy].
  constructor; simpl; auto.
  - now apply position_tick.
  - intros Hl. destruct (Hidle Hl) as (_ & _ & Ht & _).
    rewrite Ht in G. destruct G.
Qed.

Lemma scans_split l1 w l2 :
  List.length (filter is_scan (l1 ++ w :: l2)) =
  List.length (filter is_scan (l1 ++ l2)) + (if is_scan w then 1 else 0).
Proof.
  rewrite !filter_app, !length_app. simpl.
  destruct (is_scan w); simpl; lia.
Qed.

(** A pending scan means the page is loading and no other scan waits. *)
Lemma pending_scan s l1 w l2 :
  invariant s ->
  is_scan w = true ->
  Runtime.pending (runtime s) = l1 ++ w :: l2 ->
  Page.isLoading (page s) = true /\
  List.length (filter is_scan (l1 ++ l2)) = 0.
Proof.
  intros [Hjd Hf Hpos Hidle Hbusy] Hw Hp.
  assert (N : scans_in_flight s =
              List.length (filter is_scan (l1 ++ l2)) + 1).
  { unfold scans_in_flight. rewrite Hp, scans_split, Hw. reflexivity. }
  destruct (Page.isLoading (page s)) eqn:L.
  - split; [reflexivity|]. destruct (Hbusy eq_refl) as [H1 _]. lia.
  - destruct (Hidle eq_refl) as [H0 _]. lia.
Qed.

(** The turn that ends a scan: the handler takes the settled promise off
    the pending list, may store results, and sets [isLoading] to false. *)
Lemma inv_scan_ends (h : M unit) s l1 w l2 :
  invariant s ->
  is_scan w = true ->
  Runtime.pending (runtime s) = l1 ++ w :: l2 ->
  outcome h s = Normal tt ->
  Page.file (page (exec h s)) = Page.file (page s) ->
  Page.jobDescription (page (exec h s)) = Page.jobDescription (page s) ->
  Page.isLoading (page (exec h s)) = false ->
  upload (exec h s) = upload s ->
  preview (exec h s) = preview s ->
  Runtime.pending (runtime (exec h s)) = l1 ++ l2 ->
  Runtime.timers (runtime (exec h s)) = Runtime.timers (runtime s) ->
  Runtime.scanInterval (runtime (exec h s)) = Runtime.scanInterval (runtime s) ->
  requests (trace h s) = [] ->
  invariant (exec (dispatch h) s) /\ requests (trace (dispatch h) s) = [].
Proof.
  intros I Hw Hp Ho Hpf Hpj Hpl Hu Hv Hpe Ht Hi Hq.
  destruct (@pending_scan s l1 w l2 I Hw Hp) as [L Z0].
  destruct (@dispatch_run h s Ho) as [-> ->].
  destruct (@useEffects_loading s (exec h s)) as [-> Hq'].
  - rewrite Hpf. apply same_file_refl.
  - now rewrite Hpl, L.
  - rewrite requests_app, Hq, Hq'. split; [|reflexivity].
    destruct I as [Hjd Hfl Hpos Hidle Hbusy].
    destruct (Hbusy L) as (_ & id & Tm & Si).
    rewrite Hpl. rewrite Si in Hi. rewrite Tm in Ht.
    destruct (exec h s) as [p1 u1 v1 r1]. simpl in *.
    unfold exec, ResumePreviewComponent.scanEffect_cleanup, bind, get.
    simpl. rewrite Hi. simpl.
    constructor; simpl; rewrite ?Hpl, ?Ht; simpl; rewrite ?N.eqb_refl; simpl;
      subst; auto; try discriminate.
    + congruence.
    + congruence.
    + split; [lia|reflexivity].
    + intros _. unfold scans_in_flight. simpl. rewrite Hpe. auto.
Qed.

Lemma fetch_settled_run l1 l2 resp s :
  (take_pending l1 l2 ;;
   spawn (ScanResume.scanResume_afterFetch (Value resp)))%M s =
  let s0 := exec (take_pending l1 l2) s in
  if Response.ok resp
  then (Normal tt, add_pending (OnJson resp) s0, [])
  else (Normal tt, exec (ScanResume.setIsLoading false) s0,
        [ConsoleError (lit "Error scanning resume:")
           (Response.statusText resp)]).
Proof.
  unfold bind, spawn. cbn [take_pending modify app].
  rewrite scanResume_afterFetch_value.
  destruct (Response.ok resp); reflexivity.
Qed.

Lemma inv_fetch_settled s l1 req l2 (r : result Response.t) :
  invariant s ->
  Runtime.pending (runtime s) = l1 ++ OnFetch req :: l2 ->
  let h := (take_pending l1 l2 ;; spawn (ScanResume.scanResume_afterFetch r))%M in
  invariant (exec (dispatch h) s) /\ requests (trace (dispatch h) s) = [].
Proof.
  intros I Hp h.
  destruct r as [resp|e].
  - assert (E := fetch_settled_run l1 l2 resp s). fold h in E.
    destruct (Response.ok resp) eqn:Ok.
    + (* the scan goes on, awaiting the body *)
      destruct (@pending_scan s l1 (OnFetch req) l2 I eq_refl Hp) as [L Z0].
      destruct (@dispatch_plain h s) as [-> ->];
        unfold outcome, exec, trace; rewrite ?E; try reflexivity.
      * apply same_file_refl.
      * split; [|reflexivity].
        destruct I as [Hjd Hfl Hpos Hidle Hbusy].
        constructor; simpl; auto.
        -- intros Hl. simpl in Hl. congruence.
        -- intros _. destruct (Hbusy L) as (_ & id & Tm & Si).
           split; [|exists id; split; assumption].
           unfold scans_in_flight. simpl.
           rewrite (filter_app is_scan (l1 ++ l2)), length_app, Z0.
           reflexivity.
    + apply (@inv_scan_ends h s l1 (OnFetch req) l2 I eq_refl Hp);
        unfold outcome, exec, trace; rewrite ?E; reflexivity.
  - apply (@inv_scan_ends h s l1 (OnFetch req) l2 I eq_refl Hp); reflexivity.
Qed.

Lemma inv_json_settled s l1 resp l2 :
  invariant s ->
  Runtime.pending (runtime s) = l1 ++ OnJson resp :: l2 ->
  let h := (take_pending l1 l2 ;;
            spawn (ScanResume.scanResume_afterJson (Response.json resp)))%M in
  invariant (exec (dispatch h) s) /\ requests (trace (dispatch h) s) = [].
Proof.
  intros I Hp h.
  apply (@inv_scan_ends h s l1 (OnJson resp) l2 I eq_refl Hp);
    unfold h; destruct (Response.json resp); reflexivity.
Qed.

Lemma inv_text_settled s l1 f l2 (r : result jsstring) :
  invariant s ->
  Runtime.pending (runtime s) = l1 ++ OnText f :: l2 ->
  let h := (take_pending l1 l2 ;;
            spawn (ResumePreviewComponent.generatePreview_afterText r))%M in
  invariant (exec (dispatch h) s) /\ requests (trace (dispatch h) s) = [].
Proof.
  intros I Hp h.
  destruct (@dispatch_plain h s) as [-> ->];
    try (unfold h; destruct r; reflexivity).
  - unfold h; destruct r; apply same_file_refl.
  - split; [|unfold h; destruct r; reflexivity].
    apply (@invariant_frame s _ I);
      try (unfold h; destruct r; reflexivity).
    unfold scans_in_flight. rewrite Hp, scans_split. simpl.
    unfold h; destruct r; simpl; lia.
Qed.

(** ** Reachable states *)

Lemma initial_invariant : invariant initial.
Proof.
  constructor; try reflexivity.
  - split; [simpl; lia|reflexivity].
  - intros _. repeat split.
  - discriminate.
Qed.

Lemma step_invariant s t s' :
  invariant s ->
  step s t s' ->
  invariant s' /\
  (requests t = [] \/
   Page.isLoading (page s) = false /\
   exists req, requests t = [req] /\ scan_invocation req).
Proof.
  intros I St. destruct St as
    [s type|s files|s files G|s value G|s G|s id G
    |s l1 req l2 r G h|s l1 resp l2 G h|s l1 f l2 r G h].
  - destruct (@inv_drag s type I). auto.
  - destruct (@inv_drop s files I). auto.
  - destruct (@inv_change s files I). auto.
  - destruct (@inv_jd_change s value I). auto.
  - destruct (@inv_click s I G) as (I' & L & f & jd & R & T).
    split; [exact I'|]. right. split; [exact L|].
    exists (scan_request (Some f) jd). split; [exact R|].
    now exists f, jd.
  - destruct (@inv_tick s id I G). auto.
  - destruct (@inv_fetch_settled s l1 req l2 r I G). auto.
  - destruct (@inv_json_settled s l1 resp l2 I G). auto.
  - destruct (@inv_text_settled s l1 f l2 r I G). auto.
Qed.

Lemma reachable_invariant tr s :
  reachable tr s ->
  invariant s /\ Forall scan_invocation (requests tr).
Proof.
  induction 1 as [|s t s' tr R [I F] St].
  - split; [exact initial_invariant|constructor].
  - destruct (@step_invariant s t s' I St) as [I' Q]. split; [exact I'|].
    rewrite requests_app. apply Forall_app. split; [exact F|].
    destruct Q as [->|(_ & req & -> & Hr)]; repeat constructor; assumption.
Qed.

Lemma props_stable_seq (m1 m2 : M unit) :
  props_stable m1 -> props_stable m2 -> props_stable (m1 ;; m2)%M.
Proof.
  intros H1 H2 s. destruct (H1 s) as (O1 & P1 & U1).
  unfold outcome, exec, bind in *.
  destruct (m1 s) as [[c1 s1] t1]. simpl in O1, P1, U1. subst c1.
  destruct (H2 s1) as (O2 & P2 & U2). unfold outcome, exec in O2, P2, U2.
  destruct (m2 s1) as [[c2 s2] t2]. simpl in *. subst.
  split; [reflexivity|split; congruence].
Qed.

Lemma props_stable_if (b : bool) (m : M unit) :
  props_stable m -> props_stable (if b then m else ret tt).
Proof.
  intros H. destruct b; [exact H|]. intros s. repeat split.
Qed.

Lemma props_stable_fileEffect_cleanup :
  props_stable ResumePreviewComponent.fileEffect_cleanup.
Proof.
  intros s. unfold outcome, exec.
  destruct (fileEffect_cleanup_run s) as [-> _]. repeat split.
Qed.

Lemma props_stable_fileEffect f :
  props_stable (ResumePreviewComponent.fileEffect f).
Proof.
  intros s. destruct (fileEffect_frame f s) as (O & P & U & _). now repeat split.
Qed.

Lemma props_stable_scanEffect_cleanup :
  props_stable ResumePreviewComponent.scanEffect_cleanup.
Proof.
  intros s.
  unfold outcome, exec, ResumePreviewComponent.scanEffect_cleanup, bind, get.
  destruct (Runtime.scanInterval (runtime s)); repeat split.
Qed.

Lemma props_stable_scanEffect l :
  props_stable (ResumePreviewComponent.scanEffect l).
Proof. intros s. destruct l; repeat split. Qed.

Lemma exec_get {A} (k : App -> M A) a :
  exec (bind get k) a = exec (k a) a.
Proof. unfold exec, bind, get. now destruct (k a a) as [[c s] t]. Qed.

Lemma useEffects_props prev a :
  page (exec (useEffects prev) a) = page a /\
  upload (exec (useEffects prev) a) = upload a.
Proof.
  unfold useEffects. rewrite exec_get.
  apply props_stable_seq; [|apply props_stable_seq; [|apply props_stable_seq]];
    apply props_stable_if.
  - apply props_stable_fileEffect_cleanup.
  - apply props_stable_scanEffect_cleanup.
  - apply props_stable_fileEffect.
  - apply props_stable_scanEffect.
Qed.

Lemma dispatch_page (h : M unit) s :
  outcome h s = Normal tt ->
  page (exec (dispatch h) s) = page (exec h s).
Proof.
  intros Ho. destruct (@dispatch_run h s Ho) as [-> _].
  apply useEffects_props.
Qed.

Lemma dispatch_upload (h : M unit) s :
  outcome h s = Normal tt ->
  upload (exec (dispatch h) s) = upload (exec h s).
Proof.
  intros Ho. destruct (@dispatch_run h s Ho) as [-> _].
  apply useEffects_props.
Qed.

(** What a click on the enabled submit button sends. *)
Lemma click_requests s :
  Page.isLoading (page s) = false ->
  requests (trace (dispatch (upload_submit_onClick s)) s) =
  [scan_request (Upload.file (upload s)) (Upload.jd (upload s))].
Proof.
  intros Hl.
  destruct (@dispatch_run (upload_submit_onClick s) s eq_refl) as [_ ->].
  destruct (@useEffects_loading s (exec (upload_submit_onClick s) s))
    as [_ Hq].
  - apply same_file_refl.
  - exact Hl.
  - rewrite requests_app, Hq, app_nil_r. reflexivity.
Qed.

Lemma click_position s :
  Page.isLoading (page s) = false ->
  Preview.scanPosition (preview (exec (dispatch (upload_submit_onClick s)) s)) =
  Preview.scanPosition (preview s).
Proof.
  intros Hl.
  destruct (@dispatch_run (upload_submit_onClick s) s eq_refl) as [-> _].
  destruct (@useEffects_loading s (exec (upload_submit_onClick s) s)) as [-> _].
  - apply same_file_refl.
  - exact Hl.
  - unfold exec, ResumePreviewComponent.scanEffect_cleanup, bind, get.
    cbn. destruct (Runtime.scanInterval (runtime s)); reflexivity.
Qed.

Lemma loading_starts_at_zero s t s' :
  invariant s ->
  step s t s' ->
  Page.isLoading (page s) = false ->
  Page.isLoading (page s') = true ->
  Preview.scanPosition (preview s') = 0%Z.
Proof.
  intros I St L L'.
  assert (Stay : forall h : M unit,
             outcome h s = Normal tt ->
             Page.isLoading (page (exec h s)) = Page.isLoading (page s) ->
             Page.isLoading (page (exec (dispatch h) s)) = true -> False).
  { intros h Ho E. rewrite (dispatch_page h s Ho), E, L. discriminate. }
  destruct St as
    [s type|s files|s files G|s value G|s G|s id G
    |s l1 req l2 r G h|s l1 resp l2 G h|s l1 f l2 r G h].
  - exfalso. apply (Stay (upload_handleDrag type)); [| |exact L'];
      unfold upload_handleDrag, ResumeUploadComponent.handleDrag, outcome, exec;
      cbn -[lit str_eqb];
      destruct (str_eqb type (lit "dragenter") || str_eqb type (lit "dragover"));
      try reflexivity; destruct (str_eqb type (lit "dragleave")); reflexivity.
  - exfalso. apply (Stay (upload_handleDrop files)); [| |exact L'];
      destruct files; reflexivity.
  - exfalso. apply (Stay (upload_handleChange files)); [| |exact L'];
      destruct files; reflexivity.
  - exfalso. apply (Stay (upload_handleJdChange value)); [| |exact L'];
      reflexivity.
  - rewrite (click_position s L).
    destruct I as [_ _ _ Hidle _]. now destruct (Hidle L) as (_ & P & _).
  - exfalso. apply (Stay ResumePreviewComponent.scanTick); [| |exact L'];
      reflexivity.
  - destruct (@pending_scan s l1 (OnFetch req) l2 I eq_refl G) as [T _].
    congruence.
  - destruct (@pending_scan s l1 (OnJson resp) l2 I eq_refl G) as [T _].
    congruence.
  - exfalso. apply (Stay h); [| |exact L']; unfold h; destruct r; reflexivity.
Qed.

Lemma session_reachable : reachable session_history session_4.
Proof.
  unfold session_history, session_4.
  apply reach_step with (s := session_3).
  - apply reach_step with (s := session_2).
    + apply reach_step with (s := session_1).
      * apply reach_step with (s := initial).
        -- apply reach_initial.
        -- apply step_drop.
      * apply step_jd. reflexivity.
    + apply step_click. reflexivity.
  - apply step_tick with (id := 1%N). simpl. now left.
Qed.

(** C5. In every reachable state the scan position is an even integer
    between 0 and 100, and it is 0 whenever [isLoading] is false; a scan
    starts with the position at 0; a tick maps [p] to 0 when [p >= 100]
    and to [p + 2] otherwise; so the scan line, drawn at [top: p%], is
    never outside the preview area. *)
Theorem scan_position_stays_in_range tr s :
  reachable tr s ->
  let p := Preview.scanPosition (preview s) in
  ((0 <= p <= 100)%Z /\ Z.even p = true) /\
  (Page.isLoading (page s) = false -> p = 0%Z) /\
  (forall t s',
     step s t s' ->
     Page.isLoading (page s) = false ->
     Page.isLoading (page s') = true ->
     Preview.scanPosition (preview s') = 0%Z) /\
  Preview.scanPosition (preview (exec ResumePreviewComponent.scanTick s)) =
    (if (p >=? 100)%Z then 0%Z else (p + 2)%Z) /\
  (forall name size background top stops,
     render_preview s = Value (ScanningView name size background top stops) ->
     top = p /\ (0 <= top <= 100)%Z).
Proof.
  intros R p. destruct (reachable_invariant R) as [I _].
  split; [exact (inv_position I)|].
  split; [intros L; now destruct (inv_idle I L) as (_ & P & _)|].
  split; [intros t s' St; exact (loading_starts_at_zero I St)|].
  split; [reflexivity|].
  intros name size background top stops.
  unfold render_preview, ResumePreviewComponent_render.
  destruct (negb (is_some (Page.file (page s))) &&
            negb (truthy (Page.results (page s)))); [discriminate|].
  destruct (Page.isLoading (page s)).
  - intros H. injection H as _ _ _ <- _.
    split; [reflexivity|]. exact (proj1 (inv_position I)).
  - destruct (truthy (Page.results (page s))).
    + destruct (results_panel (Page.results (page s))); discriminate.
    + destruct (Page.file (page s)); discriminate.
Qed.

Lemma scan_position_stays_in_range_witness :
  Preview.scanPosition (preview session_4) = 2%Z /\
  ((0 <= Preview.scanPosition (preview session_4) <= 100)%Z /\
   Z.even (Preview.scanPosition (preview session_4)) = true).
Proof.
  split; [reflexivity|].
  exact (proj1 (scan_position_stays_in_range session_reachable)).
Defined.

(** C7. In every reachable state the upload component's [jd] and the
    page's [jobDescription] are the same string, and after a change event
    both are the textarea's value. *)
Theorem jd_copies_agree tr s :
  reachable tr s ->
  Upload.jd (upload s) = Page.jobDescription (page s) /\
  forall value,
    let s' := exec (dispatch (upload_handleJdChange value)) s in
    Upload.jd (upload s') = value /\ Page.jobDescription (page s') = value.
Proof.
  intros R. destruct (reachable_invariant R) as [I _].
  split; [exact (inv_jd I)|].
  intros value s'. unfold s'.
  destruct (@dispatch_plain (upload_handleJdChange value) s) as [-> _];
    try reflexivity; [apply same_file_refl|].
  split; reflexivity.
Qed.

Lemma jd_copies_agree_witness :
  Upload.jd (upload session_4) = sample_jd /\
  Page.jobDescription (page session_4) = sample_jd.
Proof.
  destruct (jd_copies_agree session_reachable) as [H _].
  split; [reflexivity|]. rewrite <- H. reflexivity.
Defined.

(** C9. The submit button is disabled exactly when no file is selected,
    the job description is empty or all white space, or [isLoading] holds,
    which is exactly when a scan is in flight; every request ever sent
    comes from [scanResume] called with a file and a job description that
    is not blank; at most one scan is in flight; and [onFileUpload] with
    one argument stores the file, the page's [file] becoming that file and
    nothing else of the state changing, and sends nothing, neither in the
    handler nor in the effects that follow. *)
Theorem scans_are_guarded tr s :
  reachable tr s ->
  (upload_submit_disabled s = true <->
   Upload.file (upload s) = None \/
   forallb is_whitespace (Upload.jd (upload s)) = true \/
   Page.isLoading (page s) = true) /\
  (Page.isLoading (page s) = true <-> scans_in_flight s = 1) /\
  scans_in_flight s <= 1 /\
  Forall scan_invocation (requests tr) /\
  (forall t s', step s t s' ->
     requests t = [] \/
     scans_in_flight s = 0 /\
     exists req, requests t = [req] /\ scan_invocation req) /\
  (forall f a,
     ScanResume.handleFileUpload f None a =
     (Normal tt,
      mkApp
        (Page.mk f (Page.jobDescription (page a)) (Page.isLoading (page a))
           (Page.results (page a)))
        (upload a) (preview a) (runtime a),
      []) /\
     Page.file (page (exec (dispatch (ScanResume.handleFileUpload f None)) a))
       = f /\
     requests (trace (dispatch (ScanResume.handleFileUpload f None)) a) = []).
Proof.
  intros R. destruct (reachable_invariant R) as [I F].
  split; [|split; [|split; [|split; [exact F|split]]]].
  5: {
    intros f a. split; [reflexivity|]. split.
    - now rewrite dispatch_page.
    - destruct (@dispatch_run (ScanResume.handleFileUpload f None) a eq_refl)
        as [_ ->].
      rewrite requests_app. cbn [app].
      destruct (same_file (Page.file (page a)) f) eqn:E.
      + destruct (@useEffects_unchanged a
                    (exec (ScanResume.handleFileUpload f None) a) E eq_refl)
          as [_ ->]. reflexivity.
      + destruct (@useEffects_file a
                    (exec (ScanResume.handleFileUpload f None) a) E eq_refl)
          as [_ ->]. reflexivity. }
  - unfold upload_submit_disabled, ResumeUploadComponent.submit_disabled.
    rewrite str_truthy_trim, negb_involutive.
    destruct (Upload.file (upload s)) as [f|];
      destruct (forallb is_whitespace (Upload.jd (upload s)));
      destruct (Page.isLoading (page s)); simpl;
      intuition (try discriminate; auto).
  - destruct (Page.isLoading (page s)) eqn:L.
    + destruct (inv_busy I L) as [N _]. tauto.
    + destruct (inv_idle I L) as [N _]. rewrite N.
      split; discriminate.
  - destruct (Page.isLoading (page s)) eqn:L.
    + destruct (inv_busy I L) as [N _]. lia.
    + destruct (inv_idle I L) as [N _]. lia.
  - intros t s' St.
    destruct (@step_invariant s t s' I St) as [_ [Q|(L & Q)]]; [now left|].
    right. split; [|exact Q]. now destruct (inv_idle I L).
Qed.

Lemma scans_are_guarded_witness :
  upload_submit_disabled session_4 = true /\
  scans_in_flight session_4 = 1 /\
  requests session_history = [scan_request (Some sample_pdf) sample_jd] /\
  Forall scan_invocation (requests session_history) /\
  Page.file
    (page (exec (dispatch (ScanResume.handleFileUpload (Some sample_exe) None))
             session_4)) = Some sample_exe /\
  requests
    (trace (dispatch (ScanResume.handleFileUpload (Some sample_exe) None))
       session_4) = [].
Proof.
  destruct (scans_are_guarded session_reachable) as (_ & _ & _ & F & _ & O).
  destruct (O (Some sample_exe) session_4) as (_ & O1 & O2).
  repeat split; try reflexivity; assumption.
Defined.

(** ** The drop handler *)

(** C6. A drop carrying files stores the first of them as the selected
    file, clears the drag highlight and calls [onFileUpload] once, with
    that file alone; with the page's callback the page stores the same
    file and nothing is sent.  A drop without files only clears the drag
    highlight: the whole turn changes nothing else. *)
Theorem drop_selects_first_file s f files :
  (forall onFileUpload,
     ResumeUploadComponent.handleDrop onFileUpload (f :: files) s =
     (emit PreventDefault ;; emit StopPropagation ;;
      onFileUpload (Some f) None)%M
       (on_upload (fun u => Upload.mk false (Some f) (Upload.jd u)) s)) /\
  (let s' := exec (upload_handleDrop (f :: files)) s in
   upload s' = Upload.mk false (Some f) (Upload.jd (upload s)) /\
   page s' =
     Page.mk (Some f) (Page.jobDescription (page s))
       (Page.isLoading (page s)) (Page.results (page s)) /\
   preview s' = preview s /\
   runtime s' = runtime s /\
   requests (trace (upload_handleDrop (f :: files)) s) = []) /\
  exec (dispatch (upload_handleDrop [])) s =
    on_upload (fun u => Upload.mk false (Upload.file u) (Upload.jd u)) s.
Proof.
  split; [|split].
  - intros cb. unfold ResumeUploadComponent.handleDrop, bind. cbn.
    destruct (cb (Some f) None _) as [[[a|e|w] s2] t2]; reflexivity.
  - repeat split.
  - destruct (@dispatch_plain (upload_handleDrop []) s) as [-> _];
      try reflexivity. apply same_file_refl.
Qed.

(** ** [generatePreview] *)

Lemma pdf_type_has_no_text :
  includes (lit "application/pdf") (lit "text") = false.
Proof. reflexivity. Qed.

(** C8. A run of [generatePreview] completes with [isLoadingPreview]
    false on every path.  The file content it stores has type [pdf] when
    the MIME type is [application/pdf], [text] when the MIME type contains
    [text] (the two tests never hold together) and [document] otherwise.
    When reading the file throws, [previewError] is
    ['Failed to load preview'], the content that was stored before stays,
    and the content area of the file preview shows the error panel. *)
Theorem preview_type_and_failure env s file :
  let run := generatePreview env file in
  let p' := preview (exec run s) in
  let mime := File.type file in
  outcome run s = Normal tt /\
  Preview.isLoadingPreview p' = false /\
  (mime = lit "application/pdf" -> includes mime (lit "text") = false) /\
  (mime = lit "application/pdf" ->
   Preview.previewError p' = None /\
   exists c, Preview.fileContent p' = Some c /\ content_type c = lit "pdf") /\
  (includes mime (lit "text") = true ->
   (forall content,
      text_result env file = Value content ->
      Preview.previewError p' = None /\
      Preview.fileContent p' = Some (TextContent content) /\
      content_type (TextContent content) = lit "text") /\
   (forall e,
      text_result env file = Error e ->
      Preview.previewError p' = Some (lit "Failed to load preview") /\
      Preview.fileContent p' = Preview.fileContent (preview s) /\
      preview_content p' = ErrorPanel (lit "Failed to load preview") /\
      (Page.file (page s) = Some file ->
       Page.isLoading (page s) = false ->
       truthy (Page.results (page s)) = false ->
       render_preview (exec run s) =
       Value (FilePreviewView file
                (ErrorPanel (lit "Failed to load preview")))))) /\
  (mime <> lit "application/pdf" ->
   includes mime (lit "text") = false ->
   Preview.previewError p' = None /\
   exists c,
     Preview.fileContent p' = Some c /\ content_type c = lit "document").
Proof.
  intros run p' mime. unfold p', run, mime, outcome, exec.
  unfold generatePreview, run_async, resume,
    ResumePreviewComponent.generatePreview_call.
  cbn -[lit includes str_eqb].
  destruct (str_eqb (File.type file) (lit "application/pdf")) eqn:P;
    cbn -[lit includes str_eqb].
  - apply str_eqb_eq in P. rewrite P.
    repeat split; try reflexivity; try discriminate; try congruence.
    eexists. split; reflexivity.
  - assert (NP : File.type file <> lit "application/pdf").
    { intros E. apply str_eqb_eq in E. congruence. }
    destruct (includes (File.type file) (lit "text")) eqn:T;
      cbn -[lit includes str_eqb].
    + destruct (text_result env file) as [content|e] eqn:R;
        cbn -[lit includes str_eqb];
        repeat split; try reflexivity; try congruence; try discriminate.
      intros F L Rs. unfold render_preview, ResumePreviewComponent_render.
      cbn -[lit]. rewrite F, L, Rs. reflexivity.
    + repeat split; try reflexivity; try congruence; try discriminate.
      eexists. split; reflexivity.
Qed.

Lemma preview_type_and_failure_witness :
  let env := answering (Value server_error) in
  let p' := preview (exec (generatePreview env sample_txt) initial) in
  Preview.isLoadingPreview p' = false /\
  Preview.previewError p' = Some (lit "Failed to load preview") /\
  preview_content p' = ErrorPanel (lit "Failed to load preview").
Proof.
  intros env p'.
  destruct (preview_type_and_failure env initial sample_txt)
    as (_ & L & _ & _ & T & _).
  destruct (T eq_refl) as [_ E].
  destruct (E (lit "NotReadableError") eq_refl) as (E1 & _ & E3 & _).
  split; [exact L|]. split; [exact E1|exact E3].
Defined.

(** ** Drag-and-drop and the [accept] filter *)

(** C10. Whatever file is dropped, of any name and MIME type, the drop
    handler makes it the selected resume, in the upload component and in
    the page; with a job description that is not blank and no scan
    running the submit button is then enabled, and a click sends this
    very file.  The [accept] list of the file input plays no part. *)
Theorem drop_accepts_any_file s f files :
  let s1 := exec (dispatch (upload_handleDrop (f :: files))) s in
  Upload.file (upload s1) = Some f /\
  Page.file (page s1) = Some f /\
  (Page.isLoading (page s) = false ->
   trim (Upload.jd (upload s)) <> [] ->
   upload_submit_disabled s1 = false /\
   requests (trace (dispatch (upload_submit_onClick s1)) s1) =
     [scan_request (Some f) (Upload.jd (upload s))]).
Proof.
  intros s1.
  assert (U : upload s1 = Upload.mk false (Some f) (Upload.jd (upload s))).
  { unfold s1. now rewrite dispatch_upload. }
  assert (P : page s1 =
              Page.mk (Some f) (Page.jobDescription (page s))
                (Page.isLoading (page s)) (Page.results (page s))).
  { unfold s1. now rewrite dispatch_page. }
  rewrite U, P. split; [reflexivity|]. split; [reflexivity|].
  intros L T. split.
  - unfold upload_submit_disabled, ResumeUploadComponent.submit_disabled.
    rewrite U, P. cbn [Upload.file Upload.jd Page.isLoading].
    rewrite L. destruct (trim (Upload.jd (upload s))); [congruence|reflexivity].
  - rewrite click_requests by (rewrite P; exact L).
    rewrite U. reflexivity.
Qed.

Lemma drop_accepts_any_file_witness :
  picker_offers sample_exe = false /\
  let s1 := exec (dispatch (upload_handleDrop [sample_exe])) session_2 in
  upload_submit_disabled s1 = false /\
  requests (trace (dispatch (upload_submit_onClick s1)) s1) =
    [scan_request (Some sample_exe) sample_jd].
Proof.
  split; [reflexivity|].
  destruct (drop_accepts_any_file session_2 sample_exe []) as (_ & _ & H).
  apply H; [reflexivity|discriminate].
Defined.

(** ** The frame of a scan *)

Lemma useEffects_bystander prev a :
  same_file (Page.file (page prev)) (Page.file (page a)) = true ->
  bystander (exec (useEffects prev) a) = bystander a.
Proof.
  intros Hf.
  destruct (Bool.eqb (Page.isLoading (page prev)) (Page.isLoading (page a))) eqn:E.
  - apply eqb_prop in E.
    now destruct (useEffects_unchanged prev a Hf E) as [-> _].
  - destruct (@useEffects_loading prev a Hf) as [-> _].
    + destruct (Page.isLoading (page prev)), (Page.isLoading (page a));
        try discriminate; reflexivity.
    + unfold exec, ResumePreviewComponent.scanEffect_cleanup, bind, get.
      destruct (Runtime.scanInterval (runtime a));
        destruct (Page.isLoading (page a)); reflexivity.
Qed.

Lemma dispatch_bystander (h : M unit) s :
  outcome h s = Normal tt ->
  bystander (exec h s) = bystander s ->
  bystander (exec (dispatch h) s) = bystander s.
Proof.
  intros Ho Hb. destruct (@dispatch_run h s Ho) as [-> _].
  rewrite useEffects_bystander; [exact Hb|].
  unfold bystander in Hb. injection Hb as -> _. apply same_file_refl.
Qed.

Lemma scan_turn_step s s' : scan_turn s s' -> exists t, step s t s'.
Proof.
  intros [s0 id G|s0 l1 req l2 r G|s0 l1 resp l2 G].
  - eexists. exact (step_tick s0 id G).
  - eexists. exact (step_fetch_settled s0 l1 req l2 r G).
  - eexists. exact (step_json_settled s0 l1 resp l2 G).
Qed.

Lemma scan_turn_bystander s s' :
  scan_turn s s' -> bystander s' = bystander s.
Proof.
  intros [s0 id G|s0 l1 req l2 r G|s0 l1 resp l2 G].
  - apply dispatch_bystander; reflexivity.
  - destruct r as [resp|e].
    + apply dispatch_bystander; unfold outcome, exec;
        rewrite fetch_settled_run; destruct (Response.ok resp); reflexivity.
    + apply dispatch_bystander; reflexivity.
  - apply dispatch_bystander; destruct (Response.json resp); reflexivity.
Qed.

Lemma scan_turns_bystander s s' :
  invariant s ->
  scan_turns s s' ->
  invariant s' /\ bystander s' = bystander s.
Proof.
  intros I T. induction T as [s|s s1 s2 T1 T IH].
  - now split.
  - destruct (scan_turn_step T1) as [t St].
    destruct (@step_invariant s t s1 I St) as [I1 _].
    destruct (IH I1) as [I2 B]. split; [exact I2|].
    rewrite B. now apply scan_turn_bystander.
Qed.

Lemma scan_session_frame tr s s' :
  reachable tr s ->
  upload_submit_disabled s = false ->
  scan_turns (exec (dispatch (upload_submit_onClick s)) s) s' ->
  Page.isLoading (page s') = false ->
  Page.file (page s') = Page.file (page s) /\
  Page.jobDescription (page s') = Page.jobDescription (page s) /\
  upload s' = upload s /\
  preview s' = preview s.
Proof.
  intros R G T L'.
  destruct (reachable_invariant R) as [I _].
  destruct (@inv_click s I G) as (I1 & L & _).
  destruct (scan_turns_bystander I1 T) as [I' B].
  assert (B1 : bystander (exec (dispatch (upload_submit_onClick s)) s) =
               bystander s) by (apply dispatch_bystander; reflexivity).
  rewrite B1 in B. unfold bystander in B.
  injection B as B1' B2 B3 B4 B5 B6 B7.
  repeat split; try assumption.
  destruct (inv_idle I L) as (_ & P & _).
  destruct (inv_idle I' L') as (_ & P' & _).
  destruct (preview s'), (preview s). simpl in *. congruence.
Qed.

(** C4. A run of [scanResume] leaves the stored file, the stored job
    description, the state of the upload and of the preview component and
    the timers and pending promises as they were: of the state cells only
    [isLoading] and [results] can differ; its only effects are the fetch
    and console messages, so nothing is written to any storage.  In the
    running application too: from the click that starts a scan, through
    the ticks of the animation and the settlement of its promises, to the
    state where [isLoading] is false again, the file, the job description,
    the upload component and the preview component end as they began. *)
Theorem scan_modifies_only_loading_and_results env s f jd :
  let run := scanResume env f jd in
  (Page.file (page (exec run s)) = Page.file (page s) /\
   Page.jobDescription (page (exec run s)) = Page.jobDescription (page s) /\
   upload (exec run s) = upload s /\
   preview (exec run s) = preview s /\
   runtime (exec run s) = runtime s /\
   Forall network_or_console (trace run s)) /\
  (forall tr s',
     reachable tr s ->
     upload_submit_disabled s = false ->
     scan_turns (exec (dispatch (upload_submit_onClick s)) s) s' ->
     Page.isLoading (page s') = false ->
     Page.file (page s') = Page.file (page s) /\
     Page.jobDescription (page s') = Page.jobDescription (page s) /\
     upload s' = upload s /\
     preview s' = preview s).
Proof.
  intros run. split.
  - unfold run, trace, exec.
    rewrite scanResume_run.
    destruct (fetch_result env (scan_request f jd)) as [resp|e].
    + destruct (Response.ok resp); [destruct (Response.json resp)|];
        repeat split; repeat constructor.
    + repeat split; repeat constructor.
  - intros tr s' R G T L. exact (scan_session_frame R G T L).
Qed.

Lemma session_2_reachable :
  reachable
    (([] ++ trace (dispatch (upload_handleDrop [sample_pdf])) initial)
     ++ trace (dispatch (upload_handleJdChange sample_jd)) session_1)
    session_2.
Proof.
  apply reach_step with (s := session_1).
  - apply reach_step with (s := initial).
    + apply reach_initial.
    + apply step_drop.
  - apply step_jd. reflexivity.
Qed.

Lemma scan_modifies_only_loading_and_results_witness :
  Page.isLoading (page session_5) = false /\
  upload session_5 = upload session_2 /\
  preview session_5 = preview session_2.
Proof.
  split; [reflexivity|].
  destruct (scan_modifies_only_loading_and_results
              (answering (Value server_error)) session_2
              (Some sample_pdf) sample_jd) as [_ H].
  destruct (H _ session_5 session_2_reachable eq_refl) as (_ & _ & U & P).
  - apply turns_next with (s1 := session_4).
    + exact (turn_tick session_3 1%N (or_introl eq_refl)).
    + apply turns_next with (s1 := session_5); [|apply turns_done].
      exact (turn_fetch session_4 [] (scan_request (Some sample_pdf) sample_jd)
               [] (Value server_error) eq_refl).
  - reflexivity.
  - split; [exact U|exact P].
Defined.

(** * Further properties of the components *)

Lemma tick_turn s :
  exec (dispatch ResumePreviewComponent.scanTick) s =
  exec ResumePreviewComponent.scanTick s.
Proof.
  destruct (@dispatch_plain ResumePreviewComponent.scanTick s) as [-> _];
    try reflexivity. apply same_file_refl.
Qed.

Lemma next_mod_51 (n : nat) :
  (Z.of_nat (S n) mod 51 =
   if 2 * (Z.of_nat n mod 51) >=? 100 then 0 else Z.of_nat n mod 51 + 1)%Z.
Proof.
  rewrite Nat2Z.inj_succ.
  destruct (Z.geb_spec (2 * (Z.of_nat n mod 51)) 100) as [G|G].
  - assert (Z.of_nat n mod 51 < 51)%Z by (apply Z.mod_pos_bound; lia).
    assert (E : (Z.of_nat n mod 51 = 50)%Z) by lia.
    symmetry. apply Z.mod_unique with (q := (Z.of_nat n / 51 + 1)%Z); [lia|].
    pose proof (Z.div_mod (Z.of_nat n) 51 ltac:(lia)). lia.
  - assert (0 <= Z.of_nat n mod 51)%Z by (apply Z.mod_pos_bound; lia).
    symmetry. apply Z.mod_unique with (q := (Z.of_nat n / 51)%Z); [lia|].
    pose proof (Z.div_mod (Z.of_nat n) 51 ltac:(lia)). lia.
Qed.

(** X8. Ticks of the scan timer move the line in steps of 2 and wrap
    after 100: [n] ticks after the position was 0 it is [2 * (n mod 51)],
    and ticks change nothing else: the page, the upload component, the
    other four cells of the preview component and the runtime stay as
    they were. *)
Theorem scan_position_after_ticks n s :
  Preview.scanPosition (preview s) = 0%Z ->
  ticks n s =
  mkApp (page s) (upload s)
    (Preview.mk (Preview.fileContent (preview s))
       (Preview.fileUrl (preview s))
       (Preview.isLoadingPreview (preview s))
       (Preview.previewError (preview s))
       (2 * (Z.of_nat n mod 51))%Z)
    (runtime s).
Proof.
  intros P0. induction n as [|n IH].
  - destruct s as [pg up [fc fu ilp pe pos] rt]. simpl in P0. subst pos.
    reflexivity.
  - unfold ticks in *. rewrite Nat.iter_succ, tick_turn, IH.
    unfold exec, ResumePreviewComponent.scanTick,
      ResumePreviewComponent.setScanPosition, modify, on_preview.
    cbn [fst snd preview page upload runtime Preview.fileContent
         Preview.fileUrl Preview.isLoadingPreview Preview.previewError
         Preview.scanPosition].
    rewrite next_mod_51.
    destruct (2 * (Z.of_nat n mod 51) >=? 100)%Z; [reflexivity|].
    do 2 f_equal. lia.
Qed.

Lemma scan_position_after_ticks_witness :
  Preview.scanPosition (preview (ticks 53 session_3)) = 4%Z.
Proof.
  rewrite (@scan_position_after_ticks 53 session_3 eq_refl).
  reflexivity.
Defined.

(** X10. The four tests of the component cover every case: the final
    [return null] is never reached, and the fourth test never fails where
    it is evaluated. *)
Theorem preview_never_renders_null file isLoading results p :
  ResumePreviewComponent_return file isLoading results p =
  ResumePreviewComponent_render file isLoading results p /\
  ResumePreviewComponent_return file isLoading results p <> Value NullView /\
  (ResumePreviewComponent_return file isLoading results p = Value NoFileView <->
   file = None /\ truthy results = false).
Proof.
  unfold ResumePreviewComponent_return, ResumePreviewComponent_render,
    scanning_view.
  destruct file as [f|], isLoading, (truthy results) eqn:T; simpl;
    repeat split; try discriminate; try reflexivity;
    try (destruct (results_panel results); simpl; discriminate);
    try (intros [? ?]; discriminate).
Qed.

(** What each handler leaves of the page and of the upload component. *)
Lemma handleDrag_outer type s :
  let h := upload_handleDrag type in
  outcome h s = Normal tt /\
  page (exec h s) = page s /\
  Upload.file (upload (exec h s)) = Upload.file (upload s) /\
  Upload.jd (upload (exec h s)) = Upload.jd (upload s) /\
  preview (exec h s) = preview s /\
  runtime (exec h s) = runtime s.
Proof.
  unfold upload_handleDrag, ResumeUploadComponent.handleDrag, outcome, exec.
  cbn -[lit str_eqb].
  destruct (str_eqb type (lit "dragenter") || str_eqb type (lit "dragover"));
    [repeat split|].
  destruct (str_eqb type (lit "dragleave")); repeat split.
Qed.

Lemma step_keeps_scan_inputs s t s' :
  invariant s ->
  scan_inputs_present s ->
  step s t s' ->
  scan_inputs_present s'.
Proof.
  intros I J St.
  assert (Keep : forall h : M unit,
             outcome h s = Normal tt ->
             Page.isLoading (page (exec h s)) = true ->
             ((exists f, Upload.file (upload (exec h s)) = Some f) /\
              trim (Upload.jd (upload (exec h s))) <> []) ->
             scan_inputs_present (exec (dispatch h) s)).
  { intros h Ho _ K _. now rewrite (dispatch_upload h s Ho). }
  assert (Idle : forall h : M unit,
             outcome h s = Normal tt ->
             Page.isLoading (page (exec h s)) = false ->
             scan_inputs_present (exec (dispatch h) s)).
  { intros h Ho E L. rewrite (dispatch_page h s Ho), E in L. discriminate. }
  assert (Same : forall h : M unit,
             outcome h s = Normal tt ->
             Page.isLoading (page (exec h s)) = Page.isLoading (page s) ->
             Upload.file (upload (exec h s)) = Upload.file (upload s) ->
             Upload.jd (upload (exec h s)) = Upload.jd (upload s) ->
             scan_inputs_present (exec (dispatch h) s)).
  { intros h Ho E Ef Ej L.
    rewrite (dispatch_page h s Ho), E in L.
    rewrite (dispatch_upload h s Ho), Ef, Ej. exact (J L). }
  destruct St as
    [s type|s files|s files G|s value G|s G|s id G
    |s l1 req l2 r G h|s l1 resp l2 G h|s l1 f l2 r G h].
  - destruct (handleDrag_outer type s) as (Ho & Hp & Hf & Hj & _).
    apply Same; try assumption. now rewrite Hp.
  - destruct files as [|f files]; [apply Same; reflexivity|].
    intros L. rewrite dispatch_page in L by reflexivity.
    rewrite dispatch_upload by reflexivity.
    destruct (J L) as [_ Hj]. split; [now exists f|exact Hj].
  - apply Idle; destruct files; try reflexivity; exact G.
  - apply Idle; [reflexivity|exact G].
  - destruct (submit_enabled s G) as (_ & Hj & Hf).
    intros _. rewrite dispatch_upload by reflexivity. now split.
  - apply Same; reflexivity.
  - destruct r as [resp|e].
    + assert (E := fetch_settled_run l1 l2 resp s). fold h in E.
      destruct (Response.ok resp).
      * apply Same; unfold outcome, exec; rewrite E; reflexivity.
      * apply Idle; unfold outcome, exec; rewrite E; reflexivity.
    + apply Idle; reflexivity.
  - apply Idle; unfold h; destruct (Response.json resp); reflexivity.
  - apply Same; unfold h; destruct r; reflexivity.
Qed.

Lemma reachable_scan_inputs tr s :
  reachable tr s -> scan_inputs_present s.
Proof.
  induction 1 as [|s t s' tr R IH St].
  - intros L. discriminate L.
  - destruct (reachable_invariant R) as [I _].
    exact (step_keeps_scan_inputs I IH St).
Qed.

(** X7. The interval of the scanning animation never leaks: no timer is live
    while [isLoading] is false, and while it is true exactly one is, the
    one the effect clean-up holds. *)
Theorem scan_interval_never_leaks tr s :
  reachable tr s ->
  (Page.isLoading (page s) = false ->
   Runtime.timers (runtime s) = [] /\ Runtime.scanInterval (runtime s) = None) /\
  (Page.isLoading (page s) = true ->
   exists id,
     Runtime.timers (runtime s) = [id] /\
     Runtime.scanInterval (runtime s) = Some id) /\
  List.length (Runtime.timers (runtime s)) <= 1.
Proof.
  intros R. destruct (reachable_invariant R) as [I _].
  split; [|split].
  - intros L. now destruct (inv_idle I L) as (_ & _ & T & S).
  - intros L. now destruct (inv_busy I L) as (_ & T).
  - destruct (Page.isLoading (page s)) eqn:L.
    + destruct (inv_busy I L) as (_ & id & -> & _). simpl. lia.
    + destruct (inv_idle I L) as (_ & _ & -> & _). simpl. lia.
Qed.

Lemma scan_interval_never_leaks_witness :
  Runtime.timers (runtime session_4) = [1%N] /\
  Runtime.timers (runtime session_5) = [].
Proof.
  split; [reflexivity|].
  assert (R5 : reachable
                 (session_history ++
                  trace (dispatch (take_pending [] [] ;;
                                   spawn (ScanResume.scanResume_afterFetch
                                            (Value server_error)))%M)
                    session_4)
                 session_5).
  { apply reach_step with (s := session_4); [exact session_reachable|].
    exact (step_fetch_settled session_4 []
             (scan_request (Some sample_pdf) sample_jd) []
             (Value server_error) eq_refl). }
  destruct (scan_interval_never_leaks R5) as (H & _).
  now destruct (H eq_refl).
Defined.

(** X9. The colour stops of the scanning overlay are ordered and inside the
    preview: [0 <= max(0, p - 10) <= p <= min(100, p + 10) <= 100], the
    band being at most 20 wide. *)
Theorem scan_overlay_stops_ordered tr s name size background top lo mid hi :
  reachable tr s ->
  render_preview s =
    Value (ScanningView name size background top (lo, mid, hi)) ->
  mid = top /\
  (0 <= lo <= mid)%Z /\ (mid <= hi <= 100)%Z /\ (hi - lo <= 20)%Z /\
  (lo = 0 \/ lo = mid - 10)%Z /\ (hi = 100 \/ hi = mid + 10)%Z.
Proof.
  intros R. destruct (reachable_invariant R) as [I _].
  destruct (inv_position I) as [Rg _].
  unfold render_preview, ResumePreviewComponent_render.
  destruct (negb (is_some (Page.file (page s))) &&
            negb (truthy (Page.results (page s)))); [discriminate|].
  destruct (Page.isLoading (page s)).
  - intros H. injection H as _ _ _ <- <- <- <-. lia.
  - destruct (truthy (Page.results (page s))).
    + destruct (results_panel (Page.results (page s))); discriminate.
    + destruct (Page.file (page s)); discriminate.
Qed.

Lemma scan_overlay_stops_ordered_witness :
  render_preview session_4 =
    Value (ScanningView (lit "cv.pdf") (Some 2048%N)
             (Some [PdfFrame (Some 1%N)]) 2 (0, 2, 12))%Z /\
  (0 <= 0 <= 2)%Z /\ (2 <= 12 <= 100)%Z.
Proof.
  assert (E : render_preview session_4 =
              Value (ScanningView (lit "cv.pdf") (Some 2048%N)
                       (Some [PdfFrame (Some 1%N)]) 2 (0, 2, 12))%Z)
    by (vm_compute; reflexivity).
  destruct (scan_overlay_stops_ordered session_reachable E)
    as (_ & H1 & H2 & _).
  split; [exact E|]. split; [exact H1|exact H2].
Defined.

(** X6. The scanning view always has a file to show: its header carries the
    size of the selected file (never the ['Processing...'] fallback) and
    the file's name (['Resume'] only for an empty name); behind the scan
    line it shows the stored content, a PDF in its frame, a text as text,
    a document by its name alone, or the grey outline when nothing is
    stored; meanwhile the upload component has its three controls
    disabled and its button reads ['Scanning Resume...']. *)
Theorem scanning_view_has_a_file tr s :
  reachable tr s ->
  Page.isLoading (page s) = true ->
  (exists f background,
     Page.file (page s) = Some f /\
     render_preview s =
       Value (ScanningView
                (if str_truthy (File.name f) then File.name f
                 else lit "Resume")
                (Some (File.size f))
                background
                (Preview.scanPosition (preview s))
                (Z.max 0 (Preview.scanPosition (preview s) - 10),
                 Preview.scanPosition (preview s),
                 Z.min 100 (Preview.scanPosition (preview s) + 10))) /\
     background =
       match Preview.fileContent (preview s) with
       | None => None
       | Some (PdfContent url) => Some [PdfFrame (Some url)]
       | Some (TextContent content) => Some [TextBlock (Some content)]
       | Some (DocumentContent name _ _) => Some [DocumentOutline (Some name)]
       end) /\
  UploadView.fileInputDisabled (render_upload s) = true /\
  UploadView.textareaDisabled (render_upload s) = true /\
  UploadView.buttonDisabled (render_upload s) = true /\
  UploadView.buttonText (render_upload s) = lit "Scanning Resume...".
Proof.
  intros R L. destruct (reachable_invariant R) as [I _].
  destruct (reachable_scan_inputs R L) as [[f Hf] _].
  rewrite (inv_file I) in Hf.
  split.
  - exists f,
      (option_map scanning_pieces (Preview.fileContent (preview s))).
    split; [exact Hf|]. split.
    + unfold render_preview, ResumePreviewComponent_render.
      rewrite Hf, L. reflexivity.
    + destruct (Preview.fileContent (preview s)) as [[u|t|n sz u]|];
        reflexivity.
  - unfold render_upload, ResumeUploadComponent_render,
      ResumeUploadComponent.submit_disabled.
    rewrite L. cbn. rewrite orb_true_r. repeat split.
Qed.

Lemma scanning_view_has_a_file_witness :
  render_preview session_8 =
    Value (ScanningView (lit "setup.exe") (Some 4096%N)
             (Some [DocumentOutline (Some (lit "setup.exe"))]) 2
             (0, 2, 12))%Z.
Proof.
  assert (R : reachable
                (session_history ++
                 trace (dispatch (upload_handleDrop [sample_exe])) session_4)
                session_8).
  { apply reach_step with (s := session_4); [exact session_reachable|].
    apply step_drop. }
  assert (L : Page.isLoading (page session_8) = true)
    by (vm_compute; reflexivity).
  assert (F : Page.file (page session_8) = Some sample_exe)
    by (vm_compute; reflexivity).
  assert (P : Preview.scanPosition (preview session_8) = 2%Z)
    by (vm_compute; reflexivity).
  assert (C : exists url,
             Preview.fileContent (preview session_8) =
             Some (DocumentContent (lit "setup.exe") 4096 url))
    by (vm_compute; eexists; reflexivity).
  destruct C as [url C].
  destruct (scanning_view_has_a_file R L)
    as [(f & background & Hf & Hr & Hb) _].
  rewrite F in Hf. injection Hf as <-.
  rewrite C in Hb. rewrite P, Hb in Hr. exact Hr.
Defined.

(** X5. The file named in the drop zone is the file the page holds: the two
    [file] cells agree in every reachable state, so the label of the
    upload component names the file the preview shows and a scan would
    send. *)
Theorem selected_file_copies_agree tr s :
  reachable tr s ->
  Upload.file (upload s) = Page.file (page s) /\
  UploadView.label (render_upload s) =
    match Page.file (page s) with
    | Some f => File.name f
    | None => lit "Drop your resume here or click to browse"
    end /\
  (forall f content,
     render_preview s = Value (FilePreviewView f content) ->
     UploadView.label (render_upload s) = File.name f).
Proof.
  intros R. destruct (reachable_invariant R) as [I _].
  assert (L : UploadView.label (render_upload s) =
              match Page.file (page s) with
              | Some f => File.name f
              | None => lit "Drop your resume here or click to browse"
              end).
  { unfold render_upload, ResumeUploadComponent_render.
    cbn [UploadView.label]. now rewrite (inv_file I). }
  split; [exact (inv_file I)|]. split; [exact L|].
  intros f content. rewrite L.
  unfold render_preview, ResumePreviewComponent_render.
  destruct (negb (is_some (Page.file (page s))) &&
            negb (truthy (Page.results (page s)))); [discriminate|].
  destruct (Page.isLoading (page s)); [discriminate|].
  destruct (truthy (Page.results (page s))).
  - destruct (results_panel (Page.results (page s))); discriminate.
  - destruct (Page.file (page s)) as [g|]; [|discriminate].
    intros H. injection H as <- _. reflexivity.
Qed.

Lemma selected_file_copies_agree_witness :
  UploadView.label (render_upload session_2) = lit "cv.pdf" /\
  exists content,
    render_preview session_2 = Value (FilePreviewView sample_pdf content).
Proof.
  destruct (selected_file_copies_agree session_2_reachable) as (_ & L & _).
  split; [rewrite L; reflexivity|].
  eexists. reflexivity.
Defined.

Lemma revoked_app t1 t2 : revoked (t1 ++ t2) = revoked t1 ++ revoked t2.
Proof.
  induction t1 as [|e t1 IH]; simpl; [reflexivity|].
  destruct e; simpl; now rewrite ?IH.
Qed.

Lemma created_app t1 t2 : created (t1 ++ t2) = created t1 ++ created t2.
Proof.
  induction t1 as [|e t1 IH]; simpl; [reflexivity|].
  destruct e; simpl; now rewrite ?IH.
Qed.

(** The effects after a turn that changed the file and not [isLoading]. *)
Lemma useEffects_new_file prev a f :
  Page.file (page a) = Some f ->
  same_file (Page.file (page prev)) (Some f) = false ->
  Page.isLoading (page prev) = Page.isLoading (page a) ->
  let s' := exec (useEffects prev) a in
  let t := trace (useEffects prev) a in
  let u := Runtime.nextUrl (runtime a) in
  let mime := File.type f in
  page s' = page a /\
  upload s' = upload a /\
  revoked t =
    match Runtime.cleanupFileUrl (runtime a) with
    | Some old => [old]
    | None => []
    end /\
  created t = [(f, u)] /\
  Runtime.cleanupFileUrl (runtime s') = Preview.fileUrl (preview a) /\
  Preview.fileUrl (preview s') = Some u /\
  Runtime.nextUrl (runtime s') = (u + 1)%N /\
  Runtime.pending (runtime s') =
    Runtime.pending (runtime a) ++
    (if str_eqb mime (lit "application/pdf") then []
     else if includes mime (lit "text") then [OnText f] else []) /\
  Preview.fileContent (preview s') =
    (if str_eqb mime (lit "application/pdf") then Some (PdfContent u)
     else if includes mime (lit "text") then Preview.fileContent (preview a)
     else Some (DocumentContent (File.name f) (File.size f) u)) /\
  Preview.isLoadingPreview (preview s') =
    (if str_eqb mime (lit "application/pdf") then false
     else includes mime (lit "text")) /\
  Preview.previewError (preview s') = None /\
  Preview.scanPosition (preview s') = Preview.scanPosition (preview a) /\
  Runtime.timers (runtime s') = Runtime.timers (runtime a) /\
  Runtime.scanInterval (runtime s') = Runtime.scanInterval (runtime a).
Proof.
  destruct a as [[pf pjd pl pr] up [fc fu ilp pe pos] [pend tm si cfu nt nu]].
  cbn [page Page.file Page.isLoading]. intros -> Hf Hl.
  unfold exec, trace, useEffects, bind, get.
  cbn [page Page.file Page.isLoading].
  rewrite Hf, Hl, eqb_reflx. cbn [negb].
  unfold ResumePreviewComponent.fileEffect_cleanup,
    ResumePreviewComponent.fileEffect,
    ResumePreviewComponent.generatePreview_call.
  destruct cfu as [old|];
    destruct (str_eqb (File.type f) (lit "application/pdf")) eqn:P;
    destruct (includes (File.type f) (lit "text")) eqn:T;
    cbn -[lit includes str_eqb]; rewrite ?P, ?T;
    cbn -[lit includes str_eqb]; rewrite ?app_nil_r; repeat split.
Qed.

(** The turn of a drop that brings a new file, in full. *)
Lemma drop_new_file s f files :
  same_file (Page.file (page s)) (Some f) = false ->
  let s' := drop (f :: files) s in
  let u := Runtime.nextUrl (runtime s) in
  let mime := File.type f in
  page s' =
    Page.mk (Some f) (Page.jobDescription (page s))
      (Page.isLoading (page s)) (Page.results (page s)) /\
  upload s' = Upload.mk false (Some f) (Upload.jd (upload s)) /\
  revoked (drop_trace (f :: files) s) =
    match Runtime.cleanupFileUrl (runtime s) with
    | Some old => [old]
    | None => []
    end /\
  created (drop_trace (f :: files) s) = [(f, u)] /\
  Runtime.cleanupFileUrl (runtime s') = Preview.fileUrl (preview s) /\
  Preview.fileUrl (preview s') = Some u /\
  Runtime.nextUrl (runtime s') = (u + 1)%N /\
  Runtime.pending (runtime s') =
    Runtime.pending (runtime s) ++
    (if str_eqb mime (lit "application/pdf") then []
     else if includes mime (lit "text") then [OnText f] else []) /\
  Preview.fileContent (preview s') =
    (if str_eqb mime (lit "application/pdf") then Some (PdfContent u)
     else if includes mime (lit "text") then Preview.fileContent (preview s)
     else Some (DocumentContent (File.name f) (File.size f) u)) /\
  Preview.isLoadingPreview (preview s') =
    (if str_eqb mime (lit "application/pdf") then false
     else includes mime (lit "text")) /\
  Preview.previewError (preview s') = None /\
  Preview.scanPosition (preview s') = Preview.scanPosition (preview s) /\
  Runtime.timers (runtime s') = Runtime.timers (runtime s) /\
  Runtime.scanInterval (runtime s') = Runtime.scanInterval (runtime s).
Proof.
  intros Hf. unfold drop, drop_trace.
  destruct (@dispatch_run (upload_handleDrop (f :: files)) s eq_refl)
    as [-> ->].
  set (a := exec (upload_handleDrop (f :: files)) s).
  destruct (@useEffects_new_file s a f eq_refl Hf eq_refl)
    as (E1 & E2 & E3 & E4 & E5 & E6 & E7 & E8 & E9 & E10 & E11 & E12 & E13 & E14).
  cbv zeta.
  rewrite revoked_app, created_app.
  rewrite E1, E2, E3, E4, E5, E6, E7, E8, E9, E10, E11, E12, E13, E14.
  repeat split; try reflexivity.
Qed.

Lemma useEffects_url_cells prev a :
  same_file (Page.file (page prev)) (Page.file (page a)) = true ->
  url_cells (exec (useEffects prev) a) = url_cells a.
Proof.
  intros Hf.
  destruct (Bool.eqb (Page.isLoading (page prev)) (Page.isLoading (page a)))
    eqn:E.
  - apply eqb_prop in E.
    now destruct (useEffects_unchanged prev a Hf E) as [-> _].
  - destruct (@useEffects_loading prev a Hf) as [-> _].
    + destruct (Page.isLoading (page prev)), (Page.isLoading (page a));
        try discriminate; reflexivity.
    + unfold exec, ResumePreviewComponent.scanEffect_cleanup, bind, get.
      destruct (Runtime.scanInterval (runtime a));
        destruct (Page.isLoading (page a)); reflexivity.
Qed.

Lemma dispatch_url_cells (h : M unit) s :
  outcome h s = Normal tt ->
  same_file (Page.file (page s)) (Page.file (page (exec h s))) = true ->
  url_cells (exec h s) = url_cells s ->
  url_cells (exec (dispatch h) s) = url_cells s.
Proof.
  intros Ho Hf Hu. destruct (@dispatch_run h s Ho) as [-> _].
  now rewrite useEffects_url_cells.
Qed.

Lemma urls_issued_cells s s' :
  urls_issued s -> url_cells s' = url_cells s -> urls_issued s'.
Proof.
  unfold urls_issued, url_cells. intros H E.
  injection E as -> -> ->. exact H.
Qed.

(** A turn that selects a file keeps the object URLs issued. *)
Lemma urls_issued_select (h : M unit) s f :
  urls_issued s ->
  outcome h s = Normal tt ->
  Page.file (page (exec h s)) = Some f ->
  Page.isLoading (page (exec h s)) = Page.isLoading (page s) ->
  url_cells (exec h s) = url_cells s ->
  urls_issued (exec (dispatch h) s).
Proof.
  intros [U1 U2] Ho Hf Hl Hu.
  destruct (same_file (Page.file (page s)) (Some f)) eqn:E.
  - apply (@urls_issued_cells s); [now split|].
    apply dispatch_url_cells; [exact Ho|now rewrite Hf|exact Hu].
  - destruct (@dispatch_run h s Ho) as [-> _].
    destruct (@useEffects_new_file s (exec h s) f Hf E (eq_sym Hl))
      as (_ & _ & _ & _ & E5 & E6 & E7 & _).
    unfold url_cells in Hu. injection Hu as Hu1 Hu2 Hu3.
    split; intros v; [rewrite E6|rewrite E5]; rewrite E7.
    + intros [= <-]. lia.
    + rewrite Hu1, Hu3. intros Hv. specialize (U1 v Hv). lia.
Qed.

Lemma step_urls_issued s t s' :
  urls_issued s -> step s t s' -> urls_issued s'.
Proof.
  intros U St.
  assert (Plain : forall h : M unit,
             outcome h s = Normal tt ->
             Page.file (page (exec h s)) = Page.file (page s) ->
             url_cells (exec h s) = url_cells s ->
             urls_issued (exec (dispatch h) s)).
  { intros h Ho Hf Hu. apply (@urls_issued_cells s); [exact U|].
    apply dispatch_url_cells; [exact Ho| |exact Hu].
    rewrite Hf. apply same_file_refl. }
  destruct St as
    [s type|s files|s files G|s value G|s G|s id G
    |s l1 req l2 r G h|s l1 resp l2 G h|s l1 f l2 r G h].
  - apply Plain;
      unfold upload_handleDrag, ResumeUploadComponent.handleDrag,
        outcome, exec; cbn -[lit str_eqb];
      destruct (str_eqb type (lit "dragenter")
                || str_eqb type (lit "dragover"));
      try reflexivity; destruct (str_eqb type (lit "dragleave")); reflexivity.
  - destruct files as [|f files]; [apply Plain; reflexivity|].
    apply (@urls_issued_select _ s f U); reflexivity.
  - destruct files as [|f files]; [apply Plain; reflexivity|].
    apply (@urls_issued_select _ s f U); reflexivity.
  - apply Plain; reflexivity.
  - apply Plain; reflexivity.
  - apply Plain; reflexivity.
  - destruct r as [resp|e]; [|apply Plain; reflexivity].
    assert (E := fetch_settled_run l1 l2 resp s). fold h in E.
    apply Plain; unfold outcome, exec; rewrite E;
      destruct (Response.ok resp); reflexivity.
  - apply Plain; unfold h; destruct (Response.json resp); reflexivity.
  - apply Plain; unfold h; destruct r; reflexivity.
Qed.

Lemma reachable_urls_issued tr s : reachable tr s -> urls_issued s.
Proof.
  induction 1 as [|s t s' tr R IH St].
  - split; intros v H; discriminate H.
  - exact (step_urls_issued IH St).
Qed.

(** X14. The object URL of a dropped file outlives its preview: when the next
    file is dropped, only the URL that was current before is revoked, and
    the file's own URL is revoked one drop later. *)
Theorem object_url_revoked_one_drop_late tr s f g h :
  reachable tr s ->
  same_file (Page.file (page s)) (Some f) = false ->
  File.same f g = false ->
  File.same g h = false ->
  let u := Runtime.nextUrl (runtime s) in
  let s1 := drop [f] s in
  let s2 := drop [g] s1 in
  created (drop_trace [f] s) = [(f, u)] /\
  Preview.fileUrl (preview s1) = Some u /\
  revoked (drop_trace [g] s1) =
    match Preview.fileUrl (preview s) with
    | Some old => [old]
    | None => []
    end /\
  ~ In u (revoked (drop_trace [g] s1)) /\
  revoked (drop_trace [h] s2) = [u].
Proof.
  intros R Hf Hg Hh u s1 s2.
  destruct (reachable_urls_issued R) as [U _].
  destruct (drop_new_file s f [] Hf)
    as (P1 & _ & _ & C1 & K1 & F1 & _).
  fold s1 in P1, K1, F1.
  assert (Hg' : same_file (Page.file (page s1)) (Some g) = false)
    by (rewrite P1; exact Hg).
  destruct (drop_new_file s1 g [] Hg')
    as (P2 & _ & R2 & _ & K2 & _).
  fold s2 in P2, K2.
  assert (Hh' : same_file (Page.file (page s2)) (Some h) = false)
    by (rewrite P2; exact Hh).
  destruct (drop_new_file s2 h [] Hh') as (_ & _ & R3 & _).
  rewrite K1 in R2. rewrite K2, F1 in R3.
  repeat split; try assumption.
  rewrite R2. destruct (Preview.fileUrl (preview s)) as [old|] eqn:Eo.
  - intros [->|[]]. specialize (U u eq_refl). unfold u in U. lia.
  - intros [].
Qed.

Lemma object_url_revoked_one_drop_late_witness :
  let s1 := drop [sample_pdf] initial in
  let s2 := drop [sample_txt] s1 in
  revoked (drop_trace [sample_txt] s1) = [] /\
  revoked (drop_trace [sample_exe] s2) = [1%N].
Proof.
  intros s1 s2.
  destruct (@object_url_revoked_one_drop_late [] initial sample_pdf
              sample_txt sample_exe reach_initial eq_refl eq_refl eq_refl)
    as (_ & _ & H2 & _ & H3).
  split; [exact H2|exact H3].
Defined.

(** X15. [generatePreview] has no cancellation: when a text file is dropped
    and a PDF after it, before the text has been read, the late read
    replaces the preview of the PDF with the text of the file that is no
    longer selected. *)
Theorem late_text_read_overwrites_preview s a b content :
  same_file (Page.file (page s)) (Some a) = false ->
  File.same a b = false ->
  includes (File.type a) (lit "text") = true ->
  File.type b = lit "application/pdf" ->
  let s2 := drop [b] (drop [a] s) in
  let s3 := text_settles (Runtime.pending (runtime s)) [] (Value content) s2 in
  Runtime.pending (runtime s2) = Runtime.pending (runtime s) ++ [OnText a] /\
  (exists u, Preview.fileContent (preview s2) = Some (PdfContent u)) /\
  Page.file (page s3) = Some b /\
  Preview.fileContent (preview s3) = Some (TextContent content) /\
  Preview.isLoadingPreview (preview s3) = false /\
  (Page.isLoading (page s) = false ->
   truthy (Page.results (page s)) = false ->
   render_preview s3 =
     Value (FilePreviewView b (Shown [TextBlock (Some content)]))).
Proof.
  intros Ha Hab Ta Tb s2 s3.
  assert (Pa : str_eqb (File.type a) (lit "application/pdf") = false).
  { destruct (str_eqb (File.type a) (lit "application/pdf")) eqn:E;
      [|reflexivity].
    apply str_eqb_eq in E. rewrite E in Ta. discriminate Ta. }
  destruct (drop_new_file s a [] Ha)
    as (P1 & _ & _ & _ & _ & _ & _ & Q1 & _).
  rewrite Pa, Ta in Q1.
  assert (Hb : same_file (Page.file (page (drop [a] s))) (Some b) = false)
    by (rewrite P1; exact Hab).
  destruct (drop_new_file (drop [a] s) b [] Hb)
    as (P2 & _ & _ & _ & _ & _ & _ & Q2 & C2 & L2 & E2 & _).
  fold s2 in P2, Q2, C2, L2, E2.
  rewrite Tb in Q2, C2. cbn -[lit] in Q2, C2.
  rewrite app_nil_r, Q1 in Q2. rewrite P1 in P2. cbn in P2.
  assert (S3 : s3 = exec (take_pending (Runtime.pending (runtime s)) [] ;;
                          spawn (ResumePreviewComponent.generatePreview_afterText
                                   (Value content)))%M s2).
  { unfold s3, text_settles.
    destruct (@dispatch_plain
                (take_pending (Runtime.pending (runtime s)) [] ;;
                 spawn (ResumePreviewComponent.generatePreview_afterText
                          (Value content)))%M s2) as [-> _];
      try reflexivity. apply same_file_refl. }
  assert (P3 : page s3 = page s2) by (rewrite S3; reflexivity).
  assert (V3 : preview s3 =
               Preview.mk (Some (TextContent content))
                 (Preview.fileUrl (preview s2)) false
                 (Preview.previewError (preview s2))
                 (Preview.scanPosition (preview s2)))
    by (rewrite S3; reflexivity).
  split; [exact Q2|]. split; [eexists; exact C2|].
  rewrite V3, P3, P2. repeat split.
  intros L Rs. unfold render_preview, ResumePreviewComponent_render.
  rewrite V3, P3, P2. cbn -[lit]. rewrite L, Rs. cbn -[lit].
  unfold preview_content. cbn -[lit]. rewrite E2. reflexivity.
Qed.

Lemma late_text_read_overwrites_preview_witness :
  let s2 := drop [sample_pdf] (drop [sample_txt] initial) in
  let s3 := text_settles [] [] (Value (lit "Ada, CV")) s2 in
  Page.file (page s3) = Some sample_pdf /\
  Preview.fileContent (preview s3) = Some (TextContent (lit "Ada, CV")).
Proof.
  intros s2 s3.
  destruct (@late_text_read_overwrites_preview initial sample_txt sample_pdf
              (lit "Ada, CV") eq_refl eq_refl eq_refl eq_refl)
    as (_ & _ & H1 & H2 & _).
  split; [exact H1|exact H2].
Defined.

(** The effects do not look at the upload component. *)
Lemma useEffects_on_upload prev a g :
  exec (useEffects prev) (on_upload g a) =
  on_upload g (exec (useEffects prev) a).
Proof.
  destruct a as [[pf pjd pl pr] up [fc fu ilp pe pos] [pend tm si cfu nt nu]].
  unfold exec, useEffects, bind, get, on_upload.
  cbn [page upload preview runtime Page.file Page.isLoading].
  destruct (same_file (Page.file (page prev)) pf);
    destruct (Bool.eqb (Page.isLoading (page prev)) pl);
    cbn [negb]; try reflexivity;
    unfold ResumePreviewComponent.fileEffect_cleanup,
      ResumePreviewComponent.scanEffect_cleanup,
      ResumePreviewComponent.fileEffect,
      ResumePreviewComponent.generatePreview_call;
    destruct cfu, si, pl, pf as [f|];
    cbn -[lit includes str_eqb]; try reflexivity;
    destruct (str_eqb (File.type f) (lit "application/pdf"));
    cbn -[lit includes str_eqb]; try reflexivity;
    destruct (includes (File.type f) (lit "text"));
    cbn -[lit includes str_eqb]; reflexivity.
Qed.

(** X1. A drag event only moves the highlight of the drop zone: on, for
    [dragenter] and [dragover]; off, for [dragleave]; as it was, for any
    other type.  The whole turn changes nothing else and sends nothing. *)
Theorem drag_only_moves_highlight s type :
  (exists b, drag type s = set_dragActive b s) /\
  requests (trace (dispatch (upload_handleDrag type)) s) = [] /\
  (type = lit "dragenter" \/ type = lit "dragover" ->
   Upload.dragActive (upload (drag type s)) = true) /\
  (type = lit "dragleave" ->
   Upload.dragActive (upload (drag type s)) = false) /\
  (type <> lit "dragenter" -> type <> lit "dragover" ->
   type <> lit "dragleave" ->
   drag type s = s).
Proof.
  assert (Cases :
    drag type s =
    (if str_eqb type (lit "dragenter") || str_eqb type (lit "dragover")
     then set_dragActive true s
     else if str_eqb type (lit "dragleave") then set_dragActive false s
     else s) /\
    requests (trace (dispatch (upload_handleDrag type)) s) = []).
  { destruct (handleDrag_outer type s) as (Ho & Hp & _).
    unfold drag.
    destruct (@dispatch_plain (upload_handleDrag type) s Ho) as [-> ->].
    - rewrite Hp. apply same_file_refl.
    - now rewrite Hp.
    - unfold upload_handleDrag, ResumeUploadComponent.handleDrag, exec, trace.
      cbn -[lit str_eqb].
      destruct (str_eqb type (lit "dragenter")
                || str_eqb type (lit "dragover")); [split; reflexivity|].
      destruct (str_eqb type (lit "dragleave")); split; reflexivity. }
  destruct Cases as [E Q]. rewrite E.
  split; [|split; [exact Q|split; [|split]]].
  - destruct (str_eqb type (lit "dragenter") || str_eqb type (lit "dragover"));
      [now exists true|].
    destruct (str_eqb type (lit "dragleave")); [now exists false|].
    exists (Upload.dragActive (upload s)). now destruct s as [p [d f j] v r].
  - intros [->| ->]; reflexivity.
  - intros ->. reflexivity.
  - intros N1 N2 N3.
    destruct (str_eqb type (lit "dragenter")) eqn:E1;
      [apply str_eqb_eq in E1; contradiction|].
    destruct (str_eqb type (lit "dragover")) eqn:E2;
      [apply str_eqb_eq in E2; contradiction|].
    destruct (str_eqb type (lit "dragleave")) eqn:E3;
      [apply str_eqb_eq in E3; contradiction|].
    reflexivity.
Qed.

Lemma drag_only_moves_highlight_witness :
  Upload.dragActive (upload (drag (lit "dragover") initial)) = true /\
  drag (lit "dragleave") (drag (lit "dragover") initial) = initial /\
  drag (lit "dragend") session_2 = session_2.
Proof.
  destruct (drag_only_moves_highlight initial (lit "dragover"))
    as (_ & _ & H & _).
  destruct (drag_only_moves_highlight session_2 (lit "dragend"))
    as (_ & _ & _ & _ & K).
  split; [apply H; now right|]. split; [reflexivity|].
  apply K; discriminate.
Defined.

(** X2. Choosing files in the picker does what dropping them does, except
    that the highlight of the drop zone stays as it is: the first file
    becomes the selected file of both components and [onFileUpload] is
    called once with it alone; without a file the turn changes nothing at
    all; nothing is sent. *)
Theorem change_selects_first_file s f files :
  (forall onFileUpload,
     ResumeUploadComponent.handleChange onFileUpload (f :: files) s =
     (emit PreventDefault ;; onFileUpload (Some f) None)%M
       (on_upload (fun u =>
          Upload.mk (Upload.dragActive u) (Some f) (Upload.jd u)) s)) /\
  Upload.file (upload (change (f :: files) s)) = Some f /\
  Page.file (page (change (f :: files) s)) = Some f /\
  Upload.dragActive (upload (change (f :: files) s)) =
    Upload.dragActive (upload s) /\
  drop (f :: files) s = set_dragActive false (change (f :: files) s) /\
  requests (trace (dispatch (upload_handleChange (f :: files))) s) = [] /\
  change [] s = s.
Proof.
  split; [|split; [|split; [|split; [|split; [|split]]]]].
  - intros cb. unfold ResumeUploadComponent.handleChange, bind. cbn.
    destruct (cb (Some f) None _) as [[[a|e|w] s2] t2]; reflexivity.
  - unfold change. now rewrite dispatch_upload.
  - unfold change. now rewrite dispatch_page.
  - unfold change. now rewrite dispatch_upload.
  - unfold drop, change, set_dragActive.
    destruct (@dispatch_run (upload_handleDrop (f :: files)) s eq_refl)
      as [-> _].
    destruct (@dispatch_run (upload_handleChange (f :: files)) s eq_refl)
      as [-> _].
    rewrite <- useEffects_on_upload. reflexivity.
  - destruct (@dispatch_run (upload_handleChange (f :: files)) s eq_refl)
      as [_ ->].
    rewrite requests_app. cbn [app].
    destruct (same_file (Page.file (page s)) (Some f)) eqn:E.
    + destruct (@useEffects_unchanged s
                  (exec (upload_handleChange (f :: files)) s) E eq_refl)
        as [_ ->]. reflexivity.
    + destruct (@useEffects_file s
                  (exec (upload_handleChange (f :: files)) s) E eq_refl)
        as [_ ->]. reflexivity.
  - unfold change.
    destruct (@dispatch_plain (upload_handleChange []) s) as [-> _];
      try reflexivity. apply same_file_refl.
Qed.

(** X4. The drop zone is not disabled during a scan: a file dropped while
    [isLoading] holds, when the file input refuses input, replaces the
    selected file of both components, and the scan in flight goes on. *)
Theorem drop_during_scan_replaces_file s f files :
  Page.isLoading (page s) = true ->
  let s' := drop (f :: files) s in
  upload_input_disabled s = true /\
  Page.file (page s') = Some f /\
  Upload.file (upload s') = Some f /\
  Page.isLoading (page s') = true /\
  filter is_scan (Runtime.pending (runtime s')) =
    filter is_scan (Runtime.pending (runtime s)).
Proof.
  intros L s'. split; [exact L|].
  assert (P : page s' =
              Page.mk (Some f) (Page.jobDescription (page s))
                (Page.isLoading (page s)) (Page.results (page s)))
    by (unfold s', drop; now rewrite dispatch_page).
  assert (U : upload s' = Upload.mk false (Some f) (Upload.jd (upload s)))
    by (unfold s', drop; now rewrite dispatch_upload).
  rewrite P, U. repeat split; [exact L|].
  destruct (same_file (Page.file (page s)) (Some f)) eqn:E.
  - unfold s', drop.
    destruct (@dispatch_plain (upload_handleDrop (f :: files)) s)
      as [-> _]; try reflexivity. exact E.
  - destruct (drop_new_file s f files E)
      as (_ & _ & _ & _ & _ & _ & _ & Q & _).
    fold s' in Q. rewrite Q, filter_app.
    destruct (str_eqb _ _); [apply app_nil_r|].
    destruct (includes _ _); apply app_nil_r.
Qed.

Lemma drop_during_scan_replaces_file_witness :
  Page.file (page (drop [sample_exe] session_4)) = Some sample_exe /\
  scans_in_flight (drop [sample_exe] session_4) = 1.
Proof.
  destruct (@drop_during_scan_replaces_file session_4 sample_exe [] eq_refl)
    as (_ & H & _ & _ & Q).
  split; [exact H|]. unfold scans_in_flight. rewrite Q. reflexivity.
Defined.

Lemma falsy_values data :
  truthy data = false ->
  data = JNull \/ data = JBool false \/ data = JStr [] \/
  exists q, data = JNum q /\ Qeq q 0.
Proof.
  destruct data as [|b|q|s|l|m]; simpl; try discriminate.
  - now left.
  - intros ->. right. now left.
  - intros H. right. right. right. exists q. split; [reflexivity|].
    apply Qeq_bool_eq. now destruct (Qeq_bool q 0).
  - destruct s; [|discriminate]. intros _. right. right. now left.
Qed.

(** [replace(pat, rep)] with the one-character pattern [c]. *)
Lemma replace_absent c rep s :
  ~ In c s -> replace s [c] rep = s.
Proof.
  induction s as [|x s IH]; intros H; [reflexivity|].
  cbn [replace starts_with].
  destruct (N.eqb_spec c x) as [->|N]; [exfalso; apply H; now left|].
  cbn [andb]. rewrite IH; [reflexivity|].
  intros K. apply H. now right.
Qed.

Lemma replace_first c rep a b :
  ~ In c a -> replace (a ++ c :: b) [c] rep = a ++ rep ++ b.
Proof.
  induction a as [|x a IH]; intros H.
  - cbn [app replace starts_with]. rewrite N.eqb_refl. reflexivity.
  - cbn [app replace starts_with].
    destruct (N.eqb_spec c x) as [->|N]; [exfalso; apply H; now left|].
    cbn [andb]. rewrite IH; [reflexivity|].
    intros K. apply H. now right.
Qed.

Lemma results_elements_rows data p rows :
  results_elements data = Value p ->
  field data "score_breakdown" = Some (JObj rows) ->
  Panel.score_breakdown p =
  map (fun kv => Panel.mkRow (replace (fst kv) (lit "_") (lit " "))
                   (snd kv) (snd kv)) rows.
Proof.
  destruct data as [| | | | |m]; try discriminate.
  unfold results_elements, member, field. intros H F.
  rewrite F in H. cbn [rbind entries] in H.
  destruct (width_templates rows); [|discriminate H].
  cbn [rbind] in H.
  destruct (assoc (lit "strengths") m) as [[| | | |st|]|]; try discriminate.
  destruct (assoc (lit "gaps") m) as [[| | | |gp|]|]; try discriminate.
  destruct (assoc (lit "recommendations") m) as [[| | | |rc|]|];
    try discriminate.
  destruct (assoc (lit "matching_keywords") m) as [[| | | |mk|]|];
    try discriminate.
  destruct (assoc (lit "missing_keywords") m) as [[| | | |ms|]|];
    try discriminate.
  cbn [rbind mapped] in H. injection H as <-. reflexivity.
Qed.

(** X11. A successful scan whose body is a falsy JSON value ([null], [false],
    [0] or the empty string) is stored like any other, and then counts as
    no results at all, whatever was on screen before: [ResultsComponent]
    shows its placeholder, and the preview shows the file preview of the
    selected file, built from the preview state the scan left alone, or
    the upload prompt when no file is selected; a results panel shown
    before the scan is gone. *)
Theorem falsy_body_counts_as_no_results env s f jd resp data :
  fetch_result env (scan_request f jd) = Value resp ->
  Response.ok resp = true ->
  Response.json resp = Value data ->
  truthy data = false ->
  let s' := exec (scanResume env f jd) s in
  (data = JNull \/ data = JBool false \/ data = JStr [] \/
   exists q, data = JNum q /\ Qeq q 0) /\
  Page.results (page s') = data /\
  ResultsComponent (Page.results (page s')) = Value ResultsPlaceholder /\
  render_preview s' =
    match Page.file (page s) with
    | Some file => Value (FilePreviewView file (preview_content (preview s)))
    | None => Value NoFileView
    end /\
  (forall panel,
     render_preview s = Value (ResultsPanelView panel) ->
     render_preview s' <> render_preview s).
Proof.
  intros E Ok J T s'.
  split; [exact (falsy_values data T)|].
  assert (Hs : s' = exec (ScanResume.setIsLoading false)
                      (exec (ScanResume.setResults data)
                         (exec (ScanResume.setIsLoading true) s))).
  { unfold s', exec at 1. rewrite scanResume_run, E, Ok, J. reflexivity. }
  assert (Rn : render_preview s' =
               match Page.file (page s) with
               | Some file =>
                   Value (FilePreviewView file (preview_content (preview s)))
               | None => Value NoFileView
               end).
  { rewrite Hs. unfold render_preview, ResumePreviewComponent_render.
    cbn -[truthy]. rewrite T. destruct (Page.file (page s)); reflexivity. }
  split; [rewrite Hs; reflexivity|]. split; [|split; [exact Rn|]].
  - rewrite Hs. unfold ResultsComponent. cbn -[truthy]. now rewrite T.
  - intros panel P. rewrite Rn, P.
    destruct (Page.file (page s)); discriminate.
Qed.

Lemma falsy_body_counts_as_no_results_witness :
  let env := answering (Value (Response.mk true (lit "OK") (Value JNull))) in
  let s' := exec (scanResume env (Some sample_pdf) sample_jd) session_7 in
  (exists panel, render_preview session_7 = Value (ResultsPanelView panel)) /\
  (exists content,
     render_preview s' = Value (FilePreviewView sample_pdf content)) /\
  render_preview s' <> render_preview session_7.
Proof.
  intros env s'.
  assert (P : exists panel,
             render_preview session_7 = Value (ResultsPanelView panel))
    by (vm_compute; eexists; reflexivity).
  assert (F : Page.file (page session_7) = Some sample_pdf)
    by (vm_compute; reflexivity).
  destruct (@falsy_body_counts_as_no_results env session_7 (Some sample_pdf)
              sample_jd _ JNull eq_refl eq_refl eq_refl eq_refl)
    as (_ & _ & _ & H & K).
  fold s' in H, K. rewrite F in H.
  split; [exact P|]. split; [eexists; exact H|].
  destruct P as [panel P]. exact (K panel P).
Defined.

(** X13. A row of the score breakdown is labelled with its key, the first
    underscore turned into a space and any later one kept: a key without
    underscore is shown as it is, a key [a_b] with no underscore in [a]
    as [a b]. *)
Theorem breakdown_label_first_underscore data p rows :
  results_elements data = Value p ->
  field data "score_breakdown" = Some (JObj rows) ->
  List.length (Panel.score_breakdown p) = List.length rows /\
  forall i key v,
    nth_error rows i = Some (key, v) ->
    exists label,
      nth_error (Panel.score_breakdown p) i = Some (Panel.mkRow label v v) /\
      (~ In 95%N key -> label = key) /\
      (forall a b, key = a ++ lit "_" ++ b -> ~ In 95%N a ->
                   label = a ++ lit " " ++ b).
Proof.
  intros H F. rewrite (results_elements_rows data H F).
  split; [apply length_map|].
  intros i key v Hi.
  exists (replace key (lit "_") (lit " ")). split; [|split].
  - rewrite nth_error_map, Hi. reflexivity.
  - intros N. now apply replace_absent.
  - intros a b -> N. exact (replace_first 95%N (lit " ") a b N).
Qed.

Lemma breakdown_label_first_underscore_witness :
  exists p,
    results_elements sample_report = Value p /\
    map Panel.label (Panel.score_breakdown p) =
      [lit "skills match"; lit "experience"].
Proof.
  destruct (results_elements sample_report) as [p|e] eqn:E;
    [|discriminate E].
  exists p. split; [reflexivity|].
  destruct (@breakdown_label_first_underscore sample_report p _ E eq_refl)
    as [_ H].
  destruct (H 0 _ _ eq_refl) as (l0 & N0 & _ & L0).
  destruct (H 1 _ _ eq_refl) as (l1 & N1 & L1 & _).
  rewrite (L0 (lit "skills") (lit "match") eq_refl) in N0
    by (simpl; intuition discriminate).
  rewrite L1 in N1 by (simpl; intuition discriminate).
  injection E as <-. reflexivity.
Defined.

(** X12. Nothing ever clears the results: a turn of the event loop leaves them
    as they are unless it is the one in which the body of a response has
    been parsed, which stores that body.  So once results are on screen,
    dropping another file does not bring up its preview: the results
    panel of the earlier scan stays. *)
Theorem results_stay_until_replaced s :
  (forall t s',
     step s t s' ->
     Page.results (page s') = Page.results (page s) \/
     exists l1 resp l2 data,
       Runtime.pending (runtime s) = l1 ++ OnJson resp :: l2 /\
       Response.json resp = Value data /\
       Page.results (page s') = data) /\
  (forall f files,
     Page.isLoading (page s) = false ->
     truthy (Page.results (page s)) = true ->
     Page.file (page (drop (f :: files) s)) = Some f /\
     render_preview (drop (f :: files) s) = render_preview s).
Proof.
  split.
  - intros t s' St.
    destruct St as
      [s type|s files|s files G|s value G|s G|s id G
      |s l1 req l2 r G h|s l1 resp l2 G h|s l1 f l2 r G h].
    + left. destruct (handleDrag_outer type s) as (Ho & Hp & _).
      now rewrite dispatch_page, Hp.
    + left. destruct files; now rewrite dispatch_page.
    + left. destruct files; now rewrite dispatch_page.
    + left. now rewrite dispatch_page.
    + left. now rewrite dispatch_page.
    + left. now rewrite dispatch_page.
    + left. destruct r as [resp|e]; [|now rewrite dispatch_page].
      assert (E := fetch_settled_run l1 l2 resp s). fold h in E.
      rewrite dispatch_page
        by (unfold outcome; rewrite E; now destruct (Response.ok resp)).
      unfold exec. rewrite E. now destruct (Response.ok resp).
    + subst h. destruct (Response.json resp) as [data|e] eqn:J.
      * right. exists l1, resp, l2, data. repeat split; try assumption.
        now rewrite dispatch_page.
      * left. now rewrite dispatch_page.
    + left. rewrite dispatch_page by (unfold h; now destruct r).
      unfold h. now destruct r.
  - intros f files L T.
    assert (P : page (drop (f :: files) s) =
                Page.mk (Some f) (Page.jobDescription (page s))
                  (Page.isLoading (page s)) (Page.results (page s)))
      by (unfold drop; now rewrite dispatch_page).
    split; [now rewrite P|].
    unfold render_preview, ResumePreviewComponent_render.
    rewrite P. cbn [Page.file Page.isLoading Page.results].
    rewrite L, T, !andb_false_r. reflexivity.
Qed.

Lemma results_stay_until_replaced_witness :
  Page.results (page session_7) = sample_report /\
  Page.file (page (drop [sample_txt] session_7)) = Some sample_txt /\
  render_preview (drop [sample_txt] session_7) = render_preview session_7.
Proof.
  assert (L : Page.isLoading (page session_7) = false)
    by (vm_compute; reflexivity).
  assert (T : truthy (Page.results (page session_7)) = true)
    by (vm_compute; reflexivity).
  split; [vm_compute; reflexivity|].
  destruct (results_stay_until_replaced session_7) as [_ H].
  exact (H sample_txt [] L T).
Defined.

Lemma useEffects_handled prev a : Forall handled (trace (useEffects prev) a).
Proof.
  destruct a as [[pf pjd pl pr] up [fc fu ilp pe pos] [pend tm si cfu nt nu]].
  unfold trace, useEffects, bind, get.
  cbn [page upload preview runtime Page.file Page.isLoading].
  destruct (same_file (Page.file (page prev)) pf);
    destruct (Bool.eqb (Page.isLoading (page prev)) pl);
    cbn [negb]; try (repeat constructor);
    unfold ResumePreviewComponent.fileEffect_cleanup,
      ResumePreviewComponent.scanEffect_cleanup,
      ResumePreviewComponent.fileEffect,
      ResumePreviewComponent.generatePreview_call;
    destruct cfu, si, pl, pf as [f|];
    cbn -[lit includes str_eqb]; try (repeat constructor);
    destruct (str_eqb (File.type f) (lit "application/pdf"));
    cbn -[lit includes str_eqb]; try (repeat constructor);
    destruct (includes (File.type f) (lit "text"));
    cbn -[lit includes str_eqb]; repeat constructor.
Qed.

Lemma logged_app t1 t2 : logged (t1 ++ t2) = logged t1 ++ logged t2.
Proof.
  induction t1 as [|e t1 IH]; simpl; [reflexivity|].
  destruct e; simpl; now rewrite ?IH.
Qed.

Lemma logged_useEffects_loading prev a :
  same_file (Page.file (page prev)) (Page.file (page a)) = true ->
  Page.isLoading (page prev) = negb (Page.isLoading (page a)) ->
  logged (trace (useEffects prev) a) = [].
Proof.
  intros Hf Hl. unfold trace, useEffects, bind, get.
  rewrite Hf, Hl.
  replace (Bool.eqb (negb (Page.isLoading (page a))) (Page.isLoading (page a)))
    with false by (destruct (Page.isLoading (page a)); reflexivity).
  cbn [negb app ret].
  unfold ResumePreviewComponent.scanEffect_cleanup, bind, get.
  destruct (Runtime.scanInterval (runtime a));
    destruct (Page.isLoading (page a)); reflexivity.
Qed.

Lemma dispatch_handled (h : M unit) s :
  outcome h s = Normal tt ->
  Forall handled (trace h s) ->
  Forall handled (trace (dispatch h) s).
Proof.
  intros Ho Ht. destruct (@dispatch_run h s Ho) as [_ ->].
  apply Forall_app. split; [exact Ht|apply useEffects_handled].
Qed.

Lemma step_handled s t s' : step s t s' -> Forall handled t.
Proof.
  intros St.
  destruct St as
    [s type|s files|s files G|s value G|s G|s id G
    |s l1 req l2 r G h|s l1 resp l2 G h|s l1 f l2 r G h];
    try subst h; apply dispatch_handled.
  - apply handleDrag_outer.
  - unfold upload_handleDrag, ResumeUploadComponent.handleDrag, trace.
    cbn -[lit str_eqb].
    destruct (str_eqb type (lit "dragenter") || str_eqb type (lit "dragover"));
      [repeat constructor|].
    destruct (str_eqb type (lit "dragleave")); repeat constructor.
  - now destruct files.
  - destruct files; repeat constructor.
  - now destruct files.
  - destruct files; repeat constructor.
  - reflexivity.
  - repeat constructor.
  - reflexivity.
  - repeat constructor.
  - reflexivity.
  - repeat constructor.
  - destruct r as [resp|e]; [|reflexivity].
    unfold outcome. rewrite fetch_settled_run.
    now destruct (Response.ok resp).
  - destruct r as [resp|e]; [|repeat constructor].
    unfold trace. rewrite fetch_settled_run.
    destruct (Response.ok resp); repeat constructor.
  - now destruct (Response.json resp).
  - destruct (Response.json resp); repeat constructor.
  - now destruct r.
  - destruct r; repeat constructor.
Qed.

(** X16. No error escapes: in the whole history of the application no promise
    is rejected without a handler; a fetch that fails, a body that does
    not parse and a file that cannot be read each end in one
    [console.error] carrying the error, and a response that is not ok in
    one carrying its status text. *)
Theorem errors_are_logged_never_unhandled tr s :
  reachable tr s ->
  Forall handled tr /\
  (forall l1 req l2 e,
     Runtime.pending (runtime s) = l1 ++ OnFetch req :: l2 ->
     logged (trace (dispatch (take_pending l1 l2 ;;
                              spawn (ScanResume.scanResume_afterFetch
                                       (Error e)))%M) s) =
     [(lit "Error:", e)]) /\
  (forall l1 req l2 resp,
     Runtime.pending (runtime s) = l1 ++ OnFetch req :: l2 ->
     Response.ok resp = false ->
     logged (trace (dispatch (take_pending l1 l2 ;;
                              spawn (ScanResume.scanResume_afterFetch
                                       (Value resp)))%M) s) =
     [(lit "Error scanning resume:", Response.statusText resp)]) /\
  (forall l1 resp l2 e,
     Runtime.pending (runtime s) = l1 ++ OnJson resp :: l2 ->
     Response.json resp = Error e ->
     logged (trace (dispatch (take_pending l1 l2 ;;
                              spawn (ScanResume.scanResume_afterJson
                                       (Response.json resp)))%M) s) =
     [(lit "Error:", e)]) /\
  (forall l1 f l2 e,
     Runtime.pending (runtime s) = l1 ++ OnText f :: l2 ->
     logged (trace (dispatch (take_pending l1 l2 ;;
                              spawn (ResumePreviewComponent.generatePreview_afterText
                                       (Error e)))%M) s) =
     [(lit "Preview error:", e)]).
Proof.
  intros R. split; [|split; [|split; [|split]]].
  - induction R as [|s t s' tr R IH St]; [constructor|].
    apply Forall_app. split; [exact IH|exact (step_handled St)].
  - intros l1 req l2 e G. destruct (reachable_invariant R) as [I _].
    destruct (@pending_scan s l1 (OnFetch req) l2 I eq_refl G) as [L _].
    destruct (@dispatch_run
                (take_pending l1 l2 ;;
                 spawn (ScanResume.scanResume_afterFetch (Error e)))%M
                s eq_refl) as [_ ->].
    rewrite logged_app, (logged_useEffects_loading s); [reflexivity| |].
    + apply same_file_refl.
    + cbn. now rewrite L.
  - intros l1 req l2 resp G Ok. destruct (reachable_invariant R) as [I _].
    destruct (@pending_scan s l1 (OnFetch req) l2 I eq_refl G) as [L _].
    assert (E := fetch_settled_run l1 l2 resp s). rewrite Ok in E.
    destruct (@dispatch_run
                (take_pending l1 l2 ;;
                 spawn (ScanResume.scanResume_afterFetch (Value resp)))%M s)
      as [_ ->]; [unfold outcome; now rewrite E|].
    rewrite logged_app, (logged_useEffects_loading s).
    + unfold trace. rewrite E. reflexivity.
    + unfold exec. rewrite E. apply same_file_refl.
    + unfold exec. rewrite E. cbn. now rewrite L.
  - intros l1 resp l2 e G J. destruct (reachable_invariant R) as [I _].
    destruct (@pending_scan s l1 (OnJson resp) l2 I eq_refl G) as [L _].
    rewrite J.
    destruct (@dispatch_run
                (take_pending l1 l2 ;;
                 spawn (ScanResume.scanResume_afterJson (Error e)))%M
                s eq_refl) as [_ ->].
    rewrite logged_app, (logged_useEffects_loading s); [reflexivity| |].
    + apply same_file_refl.
    + cbn. now rewrite L.
  - intros l1 f l2 e G.
    destruct (@dispatch_plain
                (take_pending l1 l2 ;;
                 spawn (ResumePreviewComponent.generatePreview_afterText
                          (Error e)))%M s) as [_ ->];
      try reflexivity. apply same_file_refl.
Qed.

Lemma errors_are_logged_never_unhandled_witness :
  Forall handled session_history /\
  logged (trace (dispatch (take_pending [] [] ;;
                           spawn (ScanResume.scanResume_afterFetch
                                    (Error (lit "TypeError: Failed to fetch"))))%M)
            session_4) =
  [(lit "Error:", lit "TypeError: Failed to fetch")].
Proof.
  destruct (errors_are_logged_never_unhandled session_reachable)
    as (H & L & _).
  split; [exact H|].
  exact (L [] (scan_request (Some sample_pdf) sample_jd) [] _ eq_refl).
Defined.

(** X3. What the user sees right after dropping a new file, with no scan
    running and no results: the file preview of that file, holding the
    PDF in a frame on its fresh object URL, or the loading indicator while
    a text file is being read, or the document card with name, size and
    download link for anything else; an error of an earlier preview is
    gone. *)
Theorem dropped_file_is_previewed s f files :
  same_file (Page.file (page s)) (Some f) = false ->
  Page.isLoading (page s) = false ->
  truthy (Page.results (page s)) = false ->
  let s' := drop (f :: files) s in
  let u := Runtime.nextUrl (runtime s) in
  Preview.previewError (preview s') = None /\
  (File.type f = lit "application/pdf" ->
   render_preview s' =
     Value (FilePreviewView f (Shown [PdfFrame (Some u)]))) /\
  (includes (File.type f) (lit "text") = true ->
   render_preview s' = Value (FilePreviewView f LoadingPreview) /\
   In (OnText f) (Runtime.pending (runtime s'))) /\
  (File.type f <> lit "application/pdf" ->
   includes (File.type f) (lit "text") = false ->
   render_preview s' =
     Value (FilePreviewView f
              (Shown [DocumentCard (Some (File.name f)) (Some (File.size f))
                        (Some u)]))).
Proof.
  intros Hf L T s' u.
  destruct (drop_new_file s f files Hf)
    as (P & _ & _ & _ & _ & _ & _ & Q & C & LP & PE & _).
  fold s' u in P, Q, C, LP, PE.
  assert (Rn : render_preview s' =
               Value (FilePreviewView f (preview_content (preview s')))).
  { unfold render_preview, ResumePreviewComponent_render.
    rewrite P. cbn [Page.file Page.isLoading Page.results is_some negb andb].
    now rewrite L, T. }
  rewrite Rn. unfold preview_content. rewrite LP, PE, C.
  split; [reflexivity|]. split; [|split].
  - intros E. rewrite E. reflexivity.
  - intros Tx.
    assert (Pf : str_eqb (File.type f) (lit "application/pdf") = false).
    { destruct (str_eqb (File.type f) (lit "application/pdf")) eqn:E;
        [|reflexivity].
      apply str_eqb_eq in E. rewrite E in Tx. discriminate Tx. }
    rewrite Q, Pf, Tx. split; [reflexivity|].
    apply in_or_app. right. now left.
  - intros Np Nt.
    destruct (str_eqb (File.type f) (lit "application/pdf")) eqn:E;
      [apply str_eqb_eq in E; contradiction|].
    rewrite Nt. reflexivity.
Qed.

Lemma dropped_file_is_previewed_witness :
  render_preview (drop [sample_pdf] initial) =
    Value (FilePreviewView sample_pdf (Shown [PdfFrame (Some 1%N)])) /\
  render_preview (drop [sample_txt] initial) =
    Value (FilePreviewView sample_txt LoadingPreview) /\
  render_preview (drop [sample_exe] initial) =
    Value (FilePreviewView sample_exe
             (Shown [DocumentCard (Some (lit "setup.exe")) (Some 4096%N)
                       (Some 1%N)])).
Proof.
  destruct (@dropped_file_is_previewed initial sample_pdf [] eq_refl eq_refl
              eq_refl) as (_ & H1 & _).
  destruct (@dropped_file_is_previewed initial sample_txt [] eq_refl eq_refl
              eq_refl) as (_ & _ & H2 & _).
  destruct (@dropped_file_is_previewed initial sample_exe [] eq_refl eq_refl
              eq_refl) as (_ & _ & _ & H3).
  split; [exact (H1 eq_refl)|]. split; [exact (proj1 (H2 eq_refl))|].
  apply H3; [discriminate|reflexivity].
Defined.
